(** * unizipex: reader of UNICORN 7 bulk exports

    A shallow embedding of [unizipex.py] (class [UNICORNZipExport]) and the
    properties of its decoding pipeline: boundary detection in a padded
    nested archive, float decoding, name normalisation, event extraction and
    the orchestration in [__init__] / [_load_data].

    Conventions of the embedding:
    - a Python [bytes] object is a [list Byte.byte];
    - a Python [str] is a [string]; the case functions treat ASCII letters;
    - a raised exception is the [Error] branch of [result], the exception
      classes and their causes are the constructors of [exn];
    - a [numpy] array of dtype [<f4] is the list of the 32-bit patterns of
      its elements, each read little-endian from its four bytes (an IEEE-754
      single is determined by its bit pattern);
    - a generator is the sequence of items it yields and the exception that
      ends it, if any: it is finished at its first exception;
    - the capabilities the module uses ([zipfile.ZipFile],
      [xml.etree.ElementTree.parse], the built-ins [float] and [int]) are
      parameters, so every theorem holds for any implementation of them. *)

From Stdlib Require Import ZArith Lia.
From Stdlib Require Import Strings.Byte.
From stdpp Require Import base option list strings gmap pretty.
From Stdlib Require Import Strings.Ascii.

Open Scope Z_scope.

Set Warnings "-register-all".

(** ** Exceptions and the error monad *)

(** Why a [ValueError] was raised. *)
Inductive value_error : Type :=
  | InvalidDataOrder                         (* 'invalid data order' *)
  | MissingEvents (f_name key : string)      (* exported file ... does not include ... events *)
  | SubsectionNotFound                       (* bytes.rindex *)
  | BufferSizeNotMultiple                    (* numpy.frombuffer *)
  | OffsetOutOfRange                         (* numpy.frombuffer *)
  | InvalidIntLiteral (s : string)           (* int() *)
  | InvalidFloatLiteral (s : string)         (* float() *)
  | UnpackMismatch (expected got : nat).     (* tuple / list unpacking *)

(** [args[0]] of a [KeyError]: the key of a dictionary lookup, or the entry
    name [ZipFile] did not find. *)
Inductive key_error : Type :=
  | DictKey (k : string)
  | NoItemNamed (name : option string).

Inductive exn : Type :=
  | ValueError (why : value_error)
  | KeyError (arg : key_error)
  | NameError (name : string)
  | AttributeError (attr : string)           (* 'NoneType' object has no attribute ... *)
  | TypeError
  | IndexError
  | ExternalError (descr : string).          (* raised inside an imported capability *)

Inductive result (A : Type) : Type :=
  | Ok (a : A)
  | Error (e : exn).
Arguments Ok {A} a.
Arguments Error {A} e.

#[global] Instance result_ret : MRet result := fun A a => Ok a.
#[global] Instance result_bind : MBind result := fun A B f m =>
  match m with
  | Ok a => f a
  | Error e => Error e
  end.

Definition is_ok {A} (r : result A) : bool :=
  match r with Ok _ => true | Error _ => false end.

(** [[f(x) for x in xs]]: left to right, stopping at the first exception. *)
Fixpoint map_result {A B} (f : A -> result B) (xs : list A) : result (list B) :=
  match xs with
  | [] => Ok []
  | x :: rest => y ← f x; ys ← map_result f rest; Ok (y :: ys)
  end.

(** ** Bytes *)

Definition bytes := list byte.

Fixpoint bytes_eqb (a b : bytes) : bool :=
  match a, b with
  | [], [] => true
  | x :: a', y :: b' => Byte.eqb x y && bytes_eqb a' b'
  | _, _ => false
  end.

(** [buf[:stop]] for a Python integer [stop] (negative counts from the end). *)
Definition slice_to (stop : Z) (buf : bytes) : bytes :=
  if stop <? 0 then take (Z.to_nat (Z.of_nat (length buf) + stop)) buf
  else take (Z.to_nat stop) buf.

(** [sub] occurs in [buf] at offset [i]. *)
Definition occurs_at (sub : bytes) (i : nat) (buf : bytes) : Prop :=
  take (length sub) (drop i buf) = sub.

Definition occurs_atb (sub : bytes) (i : nat) (buf : bytes) : bool :=
  bytes_eqb (take (length sub) (drop i buf)) sub.

(** [bytes.rindex]: the highest offset at which [sub] occurs, if any. *)
Fixpoint rfind (sub buf : bytes) : option nat :=
  match buf with
  | [] => if occurs_atb sub 0 [] then Some 0%nat else None
  | _ :: rest =>
      match rfind sub rest with
      | Some i => Some (S i)
      | None => if occurs_atb sub 0 buf then Some 0%nat else None
      end
  end.

Definition rindex (buf sub : bytes) : result nat :=
  match rfind sub buf with
  | Some i => Ok i
  | None => Error (ValueError SubsectionNotFound)
  end.

(** ** Boundary detection and float decoding (static methods) *)

(** [b'PK\x05\x06'], the end-of-central-directory signature. *)
Definition eocd_marker : bytes := [x50; x4b; x05; x06].

Definition _get_padding_start (buf : bytes) : result nat :=
  eocd_start ← rindex buf eocd_marker;
  let eocd_len := 22%nat in
  let zip_end := (eocd_start + eocd_len)%nat in
  Ok zip_end.

(** The bit pattern of one [<f4] element: its four bytes, least significant
    first. *)
Definition f4 := Z.

Definition le32 (b0 b1 b2 b3 : byte) : f4 :=
  Z.of_N (Byte.to_N b0)
  + Z.shiftl (Z.of_N (Byte.to_N b1)) 8
  + Z.shiftl (Z.of_N (Byte.to_N b2)) 16
  + Z.shiftl (Z.of_N (Byte.to_N b3)) 24.

Fixpoint f4_elements (data : bytes) : list f4 :=
  match data with
  | b0 :: b1 :: b2 :: b3 :: rest => le32 b0 b1 b2 b3 :: f4_elements rest
  | _ => []
  end.

(** [np.frombuffer(buffer, dtype='<f4', offset=offset)] with the default
    [count=-1]: the offset must lie inside the buffer and the bytes after it
    must be a whole number of elements. *)
Definition np_frombuffer_f4 (buffer : bytes) (offset : Z) : result (list f4) :=
  let ts := Z.of_nat (length buffer) in
  if (offset <? 0) || (ts <? offset) then Error (ValueError OffsetOutOfRange)
  else
    let s := ts - offset in
    if negb (s mod 4 =? 0) then Error (ValueError BufferSizeNotMultiple)
    else Ok (f4_elements (drop (Z.to_nat offset) buffer)).

Definition _decode_binary_data (buf : bytes) : result (list f4) :=
  let prefix_len := 3 + 6 * 4 in
  let float_len := 4 in
  let buf_end := prefix_len mod float_len - float_len in
  np_frombuffer_f4 (slice_to buf_end buf) prefix_len.

(** ** Strings *)

Definition ascii_code (c : ascii) : N := N_of_ascii c.

Definition is_digit (c : ascii) : bool :=
  (48 <=? ascii_code c)%N && (ascii_code c <=? 57)%N.

Definition digit_value (c : ascii) : Z := Z.of_N (ascii_code c) - 48.

Definition upper_char (c : ascii) : ascii :=
  if (97 <=? ascii_code c)%N && (ascii_code c <=? 122)%N
  then ascii_of_N (ascii_code c - 32) else c.

Definition lower_char (c : ascii) : ascii :=
  if (65 <=? ascii_code c)%N && (ascii_code c <=? 90)%N
  then ascii_of_N (ascii_code c + 32) else c.

Fixpoint str_map (f : ascii -> ascii) (s : string) : string :=
  match s with
  | EmptyString => EmptyString
  | String c rest => String (f c) (str_map f rest)
  end.

(** [str.capitalize]: first character upper case, the others lower case. *)
Definition capitalize (s : string) : string :=
  match s with
  | EmptyString => EmptyString
  | String c rest => String (upper_char c) (str_map lower_char rest)
  end.

(** [s.startswith(p)] *)
Fixpoint startswith (s p : string) : bool :=
  match p, s with
  | EmptyString, _ => true
  | String a p', String b s' => Ascii.eqb a b && startswith s' p'
  | String _ _, EmptyString => false
  end.

(** [c in s] for a one-character string [c]. *)
Fixpoint contains_char (c : ascii) (s : string) : bool :=
  match s with
  | EmptyString => false
  | String b rest => Ascii.eqb c b || contains_char c rest
  end.

Fixpoint count_char (c : ascii) (s : string) : nat :=
  match s with
  | EmptyString => 0%nat
  | String b rest => ((if Ascii.eqb c b then 1 else 0) + count_char c rest)%nat
  end.

(** [s.split(sep)] for a one-character separator: always at least one piece. *)
Fixpoint split_char (sep : ascii) (s : string) : list string :=
  match s with
  | EmptyString => [EmptyString]
  | String b rest =>
      if Ascii.eqb sep b then EmptyString :: split_char sep rest
      else match split_char sep rest with
           | piece :: pieces => String b piece :: pieces
           | [] => [String b EmptyString]
           end
  end.

(** [a, b = xs] *)
Definition unpack2 {A} (xs : list A) : result (A * A) :=
  match xs with
  | [a; b] => Ok (a, b)
  | _ => Error (ValueError (UnpackMismatch 2 (length xs)))
  end.

(** [[x] = xs] *)
Definition unpack1 {A} (xs : list A) : result A :=
  match xs with
  | [a] => Ok a
  | _ => Error (ValueError (UnpackMismatch 1 (length xs)))
  end.

(** ** Name normalisation *)

Definition better_names : gmap string string :=
  <["Cond" := "Conductance"]>
  (<["% Cond" := "Conductance (%)"]>
  (<["Conc B" := "Concentration B"]>
  (<["PreC pressure" := "Pre-column pressure"]>
  (<["Cond temp" := "Conductance temperature"]> ∅)))).

(** The static method, for any behaviour [py_int] of the built-in [int] on
    a string. *)
Definition _correct_curve_name (py_int : string -> result Z) (n : string)
  : result (string * option Z) :=
  if startswith n "UV" && contains_char "_" n then
    '(nice, wl) ← unpack2 (split_char "_" n);
    w ← py_int wl;
    Ok (nice, Some w)
  else
    Ok (default n (better_names !! n), None).


(** ** The metadata document: [xml.etree.ElementTree] elements *)

Inductive element : Type :=
  | Element (tag : string) (attrib : gmap string string)
            (text : option string) (children : list element).

Definition tag (e : element) : string :=
  match e with Element t _ _ _ => t end.
Definition attrib (e : element) : gmap string string :=
  match e with Element _ a _ _ => a end.
Definition text (e : element) : option string :=
  match e with Element _ _ x _ => x end.
Definition children (e : element) : list element :=
  match e with Element _ _ _ cs => cs end.

(** [e.iter(name)]: [e] itself and all its descendants, in document order,
    restricted to the elements with that tag. *)
Fixpoint iter (name : string) (e : element) : list element :=
  match e with
  | Element t _ _ cs =>
      (if String.eqb t name then [e] else []) ++ flat_map (iter name) cs
  end.

(** [e.find(name)] for a plain tag name: the first child with that tag. *)
Definition find (name : string) (e : element) : option element :=
  List.find (fun c => String.eqb (tag c) name) (children e).

(** [e.get(key)] *)
Definition get (key : string) (e : element) : option string :=
  attrib e !! key.

(** [x.text] on the result of [find], which is [None] when nothing matched. *)
Definition text_of (found : option element) : result (option string) :=
  match found with
  | Some e => Ok (text e)
  | None => Error (AttributeError "text")
  end.

(** ** Names in scope of the module *)

Inductive pyobject : Type :=
  | PyModule (name : string)
  | PyClass (name : string)
  | PyBuiltin (name : string).

(** The bindings made at the top level of [unizipex.py]: its four imports
    and its one class. *)
Definition module_globals : gmap string pyobject :=
  <["ZipFile" := PyClass "zipfile.ZipFile"]>
  (<["et" := PyModule "xml.etree.ElementTree"]>
  (<["BytesIO" := PyClass "io.BytesIO"]>
  (<["np" := PyModule "numpy"]>
  (<["UNICORNZipExport" := PyClass "UNICORNZipExport"]> ∅)))).

(** The functions, types and constants of Python's built-in scope. *)
Definition builtin_names : list string :=
  [ "abs"; "aiter"; "all"; "anext"; "any"; "ascii"; "bin"; "bool";
    "breakpoint"; "bytearray"; "bytes"; "callable"; "chr"; "classmethod";
    "compile"; "complex"; "delattr"; "dict"; "dir"; "divmod"; "enumerate";
    "eval"; "exec"; "filter"; "float"; "format"; "frozenset"; "getattr";
    "globals"; "hasattr"; "hash"; "help"; "hex"; "id"; "input"; "int";
    "isinstance"; "issubclass"; "iter"; "len"; "list"; "locals"; "map";
    "max"; "memoryview"; "min"; "next"; "object"; "oct"; "open"; "ord";
    "pow"; "print"; "property"; "range"; "repr"; "reversed"; "round"; "set";
    "setattr"; "slice"; "sorted"; "staticmethod"; "str"; "sum"; "super";
    "tuple"; "type"; "vars"; "zip"; "__import__";
    "True"; "False"; "None"; "Ellipsis"; "NotImplemented"; "__debug__";
    "copyright"; "credits"; "exit"; "license"; "quit";
    "BaseException"; "Exception"; "ArithmeticError"; "AssertionError";
    "AttributeError"; "BlockingIOError"; "BrokenPipeError"; "BufferError";
    "BytesWarning"; "ChildProcessError"; "ConnectionAbortedError";
    "ConnectionError"; "ConnectionRefusedError"; "ConnectionResetError";
    "DeprecationWarning"; "EOFError"; "EncodingWarning"; "EnvironmentError";
    "FileExistsError"; "FileNotFoundError"; "FloatingPointError";
    "FutureWarning"; "GeneratorExit"; "IOError"; "ImportError";
    "ImportWarning"; "IndentationError"; "IndexError"; "InterruptedError";
    "IsADirectoryError"; "KeyError"; "KeyboardInterrupt"; "LookupError";
    "MemoryError"; "ModuleNotFoundError"; "NameError"; "NotADirectoryError";
    "NotImplementedError"; "OSError"; "OverflowError";
    "PendingDeprecationWarning"; "PermissionError"; "ProcessLookupError";
    "RecursionError"; "ReferenceError"; "ResourceWarning"; "RuntimeError";
    "RuntimeWarning"; "StopAsyncIteration"; "StopIteration"; "SyntaxError";
    "SyntaxWarning"; "SystemError"; "SystemExit"; "TabError"; "TimeoutError";
    "TypeError"; "UnboundLocalError"; "UnicodeDecodeError";
    "UnicodeEncodeError"; "UnicodeError"; "UnicodeTranslateError";
    "UnicodeWarning"; "UserWarning"; "ValueError"; "Warning";
    "ZeroDivisionError" ].

(** Evaluating a name that is no local of the function: the module's
    globals first, the built-in scope next, [NameError] otherwise. *)
Definition load_global (name : string) : result pyobject :=
  match module_globals !! name with
  | Some o => Ok o
  | None =>
      if bool_decide (name ∈ builtin_names) then Ok (PyBuiltin name)
      else Error (NameError name)
  end.


(** ** Containers *)

(** What [ZipFile] is opened on: a path, or an in-memory [BytesIO]. *)
Inductive zip_source : Type :=
  | Path (f_name : string)
  | BytesIO (data : bytes).

(** An open archive: its entries by name, decompressed. *)
Abbreviation archive := (gmap string bytes).

(** [ar.read(name)] and [ar.open(name)]: [KeyError] when there is no such
    entry; [name] is [None] when it came from an element without text. *)
Definition zip_read (ar : archive) (name : option string) : result bytes :=
  match name ≫= (ar !!.) with
  | Some data => Ok data
  | None => Error (KeyError (NoItemNamed name))
  end.

(** ** Generators *)

(** A generator that has not been started, by what its consumer sees of it:
    the items it yields, in order, and the exception that ends it, when it
    does not end by exhaustion.  A generator is finished once it has raised:
    nothing is yielded after [raised]. *)
Record generator (A : Type) : Type := mkGenerator {
  yielded : list A;
  raised : option exn
}.
Arguments mkGenerator {A} _ _.
Arguments yielded {A} _.
Arguments raised {A} _.

(** [(f(x) for x in xs)]: the items are computed one by one, as they are
    asked for, and the first exception ends the generator.  [f] is a pure
    function of its argument here, so what the consumer sees does not depend
    on when the items are asked for, and the record can hold them from the
    start. *)
Fixpoint generate {A B} (f : A -> result B) (xs : list A) : generator B :=
  match xs with
  | [] => mkGenerator [] None
  | x :: rest =>
      match f x with
      | Ok y =>
          let g := generate f rest in mkGenerator (y :: yielded g) (raised g)
      | Error e => mkGenerator [] (Some e)
      end
  end.

(** The outcome of [next(g)]. *)
Inductive step (A : Type) : Type :=
  | Yield (a : A)
  | Raise (e : exn)
  | StopIteration.
Arguments Yield {A} a.
Arguments Raise {A} e.
Arguments StopIteration {A}.

(** [next(g)]: the outcome and the generator as it is left. *)
Definition next {A} (g : generator A) : step A * generator A :=
  match yielded g with
  | y :: ys => (Yield y, mkGenerator ys (raised g))
  | [] =>
      match raised g with
      | Some e => (Raise e, mkGenerator [] None)
      | None => (StopIteration, g)
      end
  end.

(** ** Input and output *)

(** The accesses [__init__] makes to the export file. *)
Inductive io_event : Type :=
  | OpenArchive (f_name : string)            (* ZipFile(f_name) *)
  | OpenEntry (name : string)                (* ar.open(name) *)
  | ReadEntry (name : option string).        (* archive.read(name) *)

(** A computation that performs I/O: the accesses made, in order, and its
    outcome. *)
Definition io (A : Type) : Type := list io_event * result A.

#[global] Instance io_ret : MRet io := fun A a => ([], Ok a).
#[global] Instance io_bind : MBind io := fun A B f m =>
  match m with
  | (t, Ok a) => let '(t', r) := f a in (t ++ t', r)
  | (t, Error e) => (t, Error e)
  end.

Definition pure_step {A} (r : result A) : io A := ([], r).
Definition io_step {A} (ev : io_event) (r : result A) : io A := ([ev], r).

Definition trace {A} (m : io A) : list io_event := fst m.
Definition outcome {A} (m : io A) : result A := snd m.

(** The value a computation returned, if it returned. *)
Definition outcome_value {A} (m : io A) : option A :=
  match outcome m with Ok a => Some a | Error _ => None end.

(** [for x in xs: acc = body(acc, x)] *)
Fixpoint for_result {A S} (body : S -> A -> result S) (xs : list A) (acc : S)
  : result S :=
  match xs with
  | [] => Ok acc
  | x :: rest => acc' ← body acc x; for_result body rest acc'
  end.

Fixpoint for_io {A S} (body : S -> A -> io S) (xs : list A) (acc : S) : io S :=
  match xs with
  | [] => mret acc
  | x :: rest => acc' ← body acc x; for_io body rest acc'
  end.

(** ** The export reader *)

Section Reader.

(** The built-in [float]: the type of its values and its reading of a
    string. *)
Variable float : Type.
Variable py_float : string -> result float.

(** The built-in [int] on a string. *)
Variable py_int : string -> result Z.

(** [zipfile.ZipFile(source)]: the archive, or the exception of a file that
    cannot be opened or is no archive. *)
Variable ZipFile : zip_source -> result archive.

(** [xml.etree.ElementTree.parse] on the bytes of an entry. *)
Variable et_parse : bytes -> result element.

Inductive pyval : Type :=
  | PyFloat (x : float)
  | PyStr (s : string)
  | PyNone.

Definition of_text (x : option string) : pyval :=
  match x with Some s => PyStr s | None => PyNone end.

(** A tuple of lists, as [_get_events] builds it. *)
Abbreviation columns := (list (list pyval)).

(** Calling an object found by [load_global] on a tuple of lists. *)
Variable call_object : pyobject -> columns -> result columns.

(** [float(x)] on the text of an element. *)
Definition float_of_text (x : option string) : result float :=
  match x with
  | Some s => py_float s
  | None => Error TypeError
  end.

Definition heads {A} (rows : list (list A)) : option (list A) :=
  mapM head rows.

Fixpoint zip_rows {A} (n : nat) (rows : list (list A)) : list (list A) :=
  match n with
  | O => []
  | S n' =>
      match heads rows with
      | Some hs => hs :: zip_rows n' (map (drop 1) rows)
      | None => []
      end
  end.

(** [zip] applied to the unpacked [rows]: the columns of [rows], as many as the shortest row has
    items; nothing at all when there is no row. *)
Definition zip_star {A} (rows : list (list A)) : list (list A) :=
  match rows with
  | [] => []
  | r :: _ => zip_rows (length r) rows
  end.

(** ** The class *)

Record _ReadOut : Type := mk_ReadOut {
  measurements : list (list f4);
  units : generator (option string);
  wavelength : option Z
}.

Record UNICORNZipExport : Type := mkExport {
  _do : list string;
  fractions : columns;
  injections : columns;
  messages : columns;
  readout : gmap string _ReadOut
}.

Definition set_fractions v self :=
  mkExport (_do self) v (injections self) (messages self) (readout self).
Definition set_injections v self :=
  mkExport (_do self) (fractions self) v (messages self) (readout self).
Definition set_messages v self :=
  mkExport (_do self) (fractions self) (injections self) v (readout self).
Definition set_readout v self :=
  mkExport (_do self) (fractions self) (injections self) (messages self) v.

(** [self._do[0] != 'volume'] *)
Definition first_not_volume (data_order : list string) : result bool :=
  match data_order with
  | first :: _ => Ok (negb (String.eqb first "volume"))
  | [] => Error IndexError
  end.

Definition event_pair (e : element) : result (list pyval) :=
  vol_text ← text_of (find "EventVolume" e);
  vol ← float_of_text vol_text;
  txt ← text_of (find "EventText" e);
  Ok [PyFloat vol; of_text txt].

(** The tuple of lists built from the events of one [EventCurve]. *)
Definition event_columns (ec : element) : result columns :=
  events ← map_result event_pair (iter "Event" ec);
  Ok (zip_star events).

Definition _get_events (self_do : list string) (xml_root : element)
  : result (gmap (option string) columns) :=
  for_result
    (fun event_per_type ec =>
       nice ← event_columns ec;
       swap ← first_not_volume self_do;
       nice ← (if swap : bool
               then reverse ← load_global "reverse"; call_object reverse nice
               else Ok nice);
       let type := get "EventCurveType" ec in
       Ok (<[type := nice]> event_per_type))
    (iter "EventCurve" xml_root) ∅.

(** The method returns a generator over a generator: the unit texts are
    looked up only when the result is consumed.  The inner generator, of the
    element names, cannot raise. *)
Definition _get_ro_units (self_do : list string) (ro_xml : element)
  : generator (option string) :=
  let unit_full_names := map (fun n => capitalize n +:+ "Unit") self_do in
  generate (fun fn => text_of (find fn ro_xml)) unit_full_names.

Definition _decode_ro_buf (self_do : list string) (buf : bytes)
  : result (list (list f4)) :=
  stop ← _get_padding_start buf;
  ar ← ZipFile (BytesIO (take stop buf));
  let dim_f_names :=
    map (fun d => "CoordinateData." +:+ capitalize d +:+ "s") self_do in
  map_result
    (fun n => data ← zip_read ar (Some n); _decode_binary_data data)
    dim_f_names.

(** [_correct_curve_name(cn.text)] where the text may be [None]. *)
Definition correct_name_of_text (x : option string)
  : result (string * option Z) :=
  match x with
  | Some n => _correct_curve_name py_int n
  | None => Error (AttributeError "startswith")
  end.

Definition _get_ro (self_do : list string) (ar : archive) (xml_root : element)
  : io (gmap string _ReadOut) :=
  for_io
    (fun ros curve =>
       f_name ← pure_step (unpack1 (iter "BinaryCurvePointsFileName" curve));
       buf ← io_step (ReadEntry (text f_name)) (zip_read ar (text f_name));
       ms ← pure_step (_decode_ro_buf self_do buf);
       let us := _get_ro_units self_do curve in
       cn_text ← pure_step (text_of (find "Name" curve));
       '(name, wl) ← pure_step (correct_name_of_text cn_text);
       mret (<[name := mk_ReadOut ms us wl]> ros))
    (iter "Curve" xml_root) ∅.

(** The body of the [try] in [_load_data]: three assignments, abandoned at
    the first [KeyError].  The instance keeps the assignments made so far. *)
Definition assign_events (self : UNICORNZipExport)
  (events : gmap (option string) columns) : UNICORNZipExport * result unit :=
  match events !! Some "Fraction" with
  | None => (self, Error (KeyError (DictKey "Fraction")))
  | Some fr =>
      let self := set_fractions fr self in
      match events !! Some "Injection" with
      | None => (self, Error (KeyError (DictKey "Injection")))
      | Some inj =>
          let self := set_injections inj self in
          match events !! Some "Logbook" with
          | None => (self, Error (KeyError (DictKey "Logbook")))
          | Some lg => (set_messages lg self, Ok ())
          end
      end
  end.

Definition _load_data (self : UNICORNZipExport) (f_name : string)
  (ignore_missing_data : bool) : io UNICORNZipExport :=
  ar ← io_step (OpenArchive f_name) (ZipFile (Path f_name));
  let metadata := "Chrom.1.Xml" in
  mtd ← io_step (OpenEntry metadata) (zip_read ar (Some metadata));
  root ← pure_step (et_parse mtd);
  events ← pure_step (_get_events (_do self) root);
  self ← pure_step
    (match assign_events self events with
     | (self, Ok _) => Ok self
     | (self, Error (KeyError (DictKey missing))) =>
         if ignore_missing_data then Ok self
         else Error (ValueError (MissingEvents f_name missing))
     | (_, Error e) => Error e
     end);
  ros ← _get_ro (_do self) ar root;
  mret (set_readout ros self).

(** The class attributes every instance starts from. *)
Definition class_defaults (data_order : list string) : UNICORNZipExport :=
  mkExport data_order [] [] [] ∅.

Definition __init__ (file_name : string) (data_order : list string)
  (ignore_missing_data : bool) : io UNICORNZipExport :=
  if bool_decide ("volume" ∈ data_order)
     && bool_decide ("amplitude" ∈ data_order)
  then _load_data (class_defaults data_order) file_name ignore_missing_data
  else pure_step (Error (ValueError InvalidDataOrder)).

End Reader.

Arguments PyFloat {float} x.
Arguments PyStr {float} s.
Arguments PyNone {float}.
Arguments mkExport {float} _ _ _ _ _.
Arguments _do {float} _.
Arguments fractions {float} _.
Arguments injections {float} _.
Arguments messages {float} _.
Arguments readout {float} _.
Arguments set_fractions {float} v self.
Arguments set_injections {float} v self.
Arguments set_messages {float} v self.
Arguments set_readout {float} v self.
Arguments of_text {float} x.
Arguments float_of_text {float} py_float x.
Arguments event_pair {float} py_float e.
Arguments event_columns {float} py_float ec.
Arguments _get_events {float} py_float call_object self_do xml_root.
Arguments assign_events {float} self events.
Arguments _load_data {float} py_float py_int ZipFile et_parse call_object self f_name ignore_missing_data.
Arguments class_defaults {float} data_order.
Arguments __init__ {float} py_float py_int ZipFile et_parse call_object file_name data_order ignore_missing_data.

(** ** Vocabulary of the properties *)

(** Length of an end-of-central-directory record without archive comment. *)
Definition eocd_len : nat := 22.

(** A container that ends in its 22-byte end-of-central-directory record:
    the record starts with the marker, its last two bytes (the length of the
    archive comment) are zero, and the marker occurs nowhere later in the
    container. *)
Definition well_formed_container (c : bytes) : Prop :=
  (eocd_len <= length c)%nat
  /\ occurs_at eocd_marker (length c - eocd_len) c
  /\ drop (length c - 2) c = [x00; x00]
  /\ forall j, occurs_at eocd_marker j c -> (j <= length c - eocd_len)%nat.

(** Bytes in which the marker does not occur. *)
Definition marker_free (data : bytes) : Prop :=
  forall j, ~ occurs_at eocd_marker j data.

(** The empty archive: a lone end-of-central-directory record. *)
Definition empty_zip : bytes :=
  eocd_marker ++ replicate 18 x00.

(** A prefix of 27 bytes, as it precedes the floats of an entry. *)
Definition sample_prefix : bytes := replicate 27 x00.

(** The little-endian bytes of the singles 1.0 and 2.0. *)
Definition one_f4 : bytes := [x00; x00; x80; x3f].
Definition two_f4 : bytes := [x00; x00; x00; x40].

(** The renamings of [better_names], as the list of its items. *)
Definition renamings : list (string * string) :=
  [ ("Cond", "Conductance");
    ("% Cond", "Conductance (%)");
    ("Conc B", "Concentration B");
    ("PreC pressure", "Pre-column pressure");
    ("Cond temp", "Conductance temperature") ].

(** The axis orders of the specification: one of each axis, nothing else. *)
Definition exact_axis_order (data_order : list string) : Prop :=
  data_order = ["volume"; "amplitude"] \/ data_order = ["amplitude"; "volume"].

(** The unit and the decoded data of one axis [d] of a curve, as
    [_get_ro_units] and [_decode_ro_buf] address them. *)
Definition axis_unit (curve : element) (d : string) : result (option string) :=
  text_of (find (capitalize d +:+ "Unit") curve).

Definition axis_data (inner : archive) (d : string) : result (list f4) :=
  data ← zip_read inner (Some ("CoordinateData." +:+ capitalize d +:+ "s"));
  _decode_binary_data data.

(** ** Sample exports *)

Definition leaf (name txt : string) : element :=
  Element name ∅ (Some txt) [].
Definition node (name : string) (cs : list element) : element :=
  Element name ∅ None cs.

Definition event (vol txt : string) : element :=
  node "Event" [leaf "EventVolume" vol; leaf "EventText" txt].

Definition event_curve (type : string) (events : list element) : element :=
  Element "EventCurve" {["EventCurveType" := type]} None [node "Events" events].

Definition curve (name blob : string) : element :=
  node "Curve"
    [ leaf "Name" name;
      leaf "VolumeUnit" "ml";
      leaf "AmplitudeUnit" "mAU";
      node "CurvePoints"
        [node "CurvePoint" [leaf "BinaryCurvePointsFileName" blob]] ].

(** A run with the three event types and one curve. *)
Definition full_doc : element :=
  node "Chromatogram"
    [ node "EventCurves"
        [ event_curve "Fraction" [event "10" "A1"; event "12" "A2"];
          event_curve "Injection" [event "1" "Sample"];
          event_curve "Logbook" [event "0" "Start"; event "20" "End"] ];
      node "Curves" [curve "UV_280" "Chrom.1_1_True"] ].

(** A run without fractions and without curves. *)
Definition doc_no_fraction : element :=
  node "Chromatogram"
    [ node "EventCurves"
        [ event_curve "Injection" [event "1" "Sample"];
          event_curve "Logbook" [event "0" "Start"; event "20" "End"] ] ].

(** A run whose only event curve has no event. *)
Definition doc_empty_curve : element :=
  node "Chromatogram" [node "EventCurves" [event_curve "Fraction" []]].

(** A run whose curve has one volume and two amplitudes. *)
Definition ragged_doc : element :=
  node "Chromatogram"
    [ node "EventCurves"
        [ event_curve "Fraction" [event "10" "A1"];
          event_curve "Injection" [event "1" "Sample"];
          event_curve "Logbook" [event "0" "Start"] ];
      node "Curves" [curve "Cond" "Chrom.1_2_True"] ].

(** The text of a document: start tag with attributes, text, children, end
    tag. *)
Definition xml_attrs (a : gmap string string) : string :=
  String.concat ""
    (map (fun kv => " " +:+ fst kv +:+ "='" +:+ snd kv +:+ "'") (map_to_list a)).

Fixpoint to_xml (e : element) : string :=
  match e with
  | Element t a x cs =>
      "<" +:+ t +:+ xml_attrs a +:+ ">" +:+ default "" x
      +:+ String.concat "" (map to_xml cs) +:+ "</" +:+ t +:+ ">"
  end.

Definition xml_bytes (e : element) : bytes :=
  String.list_byte_of_string (to_xml e).

(** The singles 0.0 and 0.5. *)
Definition zero_f4 : bytes := [x00; x00; x00; x00].
Definition half_f4 : bytes := [x00; x00; x00; x3f].

Definition curve_zip : bytes :=
  [ x50; x4b; x03; x04; x14; x00; x00; x00; x00; x00; x00; x00;
    x21; x00; x64; x77; x6a; x1f; x24; x00; x00; x00; x24; x00;
    x00; x00; x16; x00; x00; x00; x43; x6f; x6f; x72; x64; x69;
    x6e; x61; x74; x65; x44; x61; x74; x61; x2e; x56; x6f; x6c;
    x75; x6d; x65; x73; x00; x00; x00; x00; x00; x00; x00; x00;
    x00; x00; x00; x00; x00; x00; x00; x00; x00; x00; x00; x00;
    x00; x00; x00; x00; x00; x00; x00; x00; x00; x00; x00; x00;
    x00; x00; x3f; xff; x50; x4b; x03; x04; x14; x00; x00; x00;
    x00; x00; x00; x00; x21; x00; xd7; x4d; xf7; xca; x24; x00;
    x00; x00; x24; x00; x00; x00; x19; x00; x00; x00; x43; x6f;
    x6f; x72; x64; x69; x6e; x61; x74; x65; x44; x61; x74; x61;
    x2e; x41; x6d; x70; x6c; x69; x74; x75; x64; x65; x73; x00;
    x00; x00; x00; x00; x00; x00; x00; x00; x00; x00; x00; x00;
    x00; x00; x00; x00; x00; x00; x00; x00; x00; x00; x00; x00;
    x00; x00; x00; x00; x80; x3f; x00; x00; x00; x40; xff; x50;
    x4b; x01; x02; x14; x00; x14; x00; x00; x00; x00; x00; x00;
    x00; x21; x00; x64; x77; x6a; x1f; x24; x00; x00; x00; x24;
    x00; x00; x00; x16; x00; x00; x00; x00; x00; x00; x00; x00;
    x00; x00; x00; x80; x01; x00; x00; x00; x00; x43; x6f; x6f;
    x72; x64; x69; x6e; x61; x74; x65; x44; x61; x74; x61; x2e;
    x56; x6f; x6c; x75; x6d; x65; x73; x50; x4b; x01; x02; x14;
    x00; x14; x00; x00; x00; x00; x00; x00; x00; x21; x00; xd7;
    x4d; xf7; xca; x24; x00; x00; x00; x24; x00; x00; x00; x19;
    x00; x00; x00; x00; x00; x00; x00; x00; x00; x00; x00; x80;
    x01; x58; x00; x00; x00; x43; x6f; x6f; x72; x64; x69; x6e;
    x61; x74; x65; x44; x61; x74; x61; x2e; x41; x6d; x70; x6c;
    x69; x74; x75; x64; x65; x73; x50; x4b; x05; x06; x00; x00;
    x00; x00; x02; x00; x02; x00; x8b; x00; x00; x00; xb3; x00;
    x00; x00; x00; x00 ].

Definition curve_padding : bytes :=
  [ x00; x00; x00; x50; x4b; x00 ].

Definition ragged_zip : bytes :=
  [ x50; x4b; x03; x04; x14; x00; x00; x00; x00; x00; x00; x00;
    x21; x00; x1c; x90; xd6; x6c; x20; x00; x00; x00; x20; x00;
    x00; x00; x16; x00; x00; x00; x43; x6f; x6f; x72; x64; x69;
    x6e; x61; x74; x65; x44; x61; x74; x61; x2e; x56; x6f; x6c;
    x75; x6d; x65; x73; x00; x00; x00; x00; x00; x00; x00; x00;
    x00; x00; x00; x00; x00; x00; x00; x00; x00; x00; x00; x00;
    x00; x00; x00; x00; x00; x00; x00; x00; x00; x00; x3f; xff;
    x50; x4b; x03; x04; x14; x00; x00; x00; x00; x00; x00; x00;
    x21; x00; xd7; x4d; xf7; xca; x24; x00; x00; x00; x24; x00;
    x00; x00; x19; x00; x00; x00; x43; x6f; x6f; x72; x64; x69;
    x6e; x61; x74; x65; x44; x61; x74; x61; x2e; x41; x6d; x70;
    x6c; x69; x74; x75; x64; x65; x73; x00; x00; x00; x00; x00;
    x00; x00; x00; x00; x00; x00; x00; x00; x00; x00; x00; x00;
    x00; x00; x00; x00; x00; x00; x00; x00; x00; x00; x00; x00;
    x80; x3f; x00; x00; x00; x40; xff; x50; x4b; x01; x02; x14;
    x00; x14; x00; x00; x00; x00; x00; x00; x00; x21; x00; x1c;
    x90; xd6; x6c; x20; x00; x00; x00; x20; x00; x00; x00; x16;
    x00; x00; x00; x00; x00; x00; x00; x00; x00; x00; x00; x80;
    x01; x00; x00; x00; x00; x43; x6f; x6f; x72; x64; x69; x6e;
    x61; x74; x65; x44; x61; x74; x61; x2e; x56; x6f; x6c; x75;
    x6d; x65; x73; x50; x4b; x01; x02; x14; x00; x14; x00; x00;
    x00; x00; x00; x00; x00; x21; x00; xd7; x4d; xf7; xca; x24;
    x00; x00; x00; x24; x00; x00; x00; x19; x00; x00; x00; x00;
    x00; x00; x00; x00; x00; x00; x00; x80; x01; x54; x00; x00;
    x00; x43; x6f; x6f; x72; x64; x69; x6e; x61; x74; x65; x44;
    x61; x74; x61; x2e; x41; x6d; x70; x6c; x69; x74; x75; x64;
    x65; x73; x50; x4b; x05; x06; x00; x00; x00; x00; x02; x00;
    x02; x00; x8b; x00; x00; x00; xaf; x00; x00; x00; x00; x00 ].

Definition ragged_padding : bytes :=
  [ xff; xff; xff ].

(** The entries of [curve_zip]: two points, volumes 0.0 and 0.5, amplitudes
    1.0 and 2.0, each entry with the 27-byte prefix and one closing byte. *)
Definition curve_archive : archive :=
  <["CoordinateData.Volumes" := sample_prefix ++ zero_f4 ++ half_f4 ++ [xff]]>
  (<["CoordinateData.Amplitudes" := sample_prefix ++ one_f4 ++ two_f4 ++ [xff]]> ∅).

(** The entries of [ragged_zip]: one volume, two amplitudes. *)
Definition ragged_archive : archive :=
  <["CoordinateData.Volumes" := sample_prefix ++ half_f4 ++ [xff]]>
  (<["CoordinateData.Amplitudes" := sample_prefix ++ one_f4 ++ two_f4 ++ [xff]]> ∅).

(** The files of the sample file system, by path, as their entries. *)
Definition sample_files : gmap string archive :=
  <["run.zip" := <["Chrom.1.Xml" := xml_bytes full_doc]>
                 (<["Chrom.1_1_True" := curve_zip ++ curve_padding]> ∅)]>
  (<["no_fraction.zip" := {["Chrom.1.Xml" := xml_bytes doc_no_fraction]}]>
  (<["empty_curve.zip" := {["Chrom.1.Xml" := xml_bytes doc_empty_curve]}]>
  (<["ragged.zip" := <["Chrom.1.Xml" := xml_bytes ragged_doc]>
                    (<["Chrom.1_2_True" := ragged_zip ++ ragged_padding]> ∅)]>
  (<["no_metadata.zip" := {["Chrom.1_1_True" := curve_zip ++ curve_padding]}]> ∅)))).

(** [ZipFile] on the sample file system and on the two sample nested
    archives. *)
Definition sample_ZipFile (source : zip_source) : result archive :=
  match source with
  | Path f_name =>
      match sample_files !! f_name with
      | Some ar => Ok ar
      | None => Error (ExternalError "FileNotFoundError")
      end
  | BytesIO data =>
      if bytes_eqb data curve_zip then Ok curve_archive
      else if bytes_eqb data ragged_zip then Ok ragged_archive
      else Error (ExternalError "BadZipFile")
  end.

(** [et.parse] on the texts of the sample documents. *)
Definition sample_parse (data : bytes) : result element :=
  match List.find (fun doc => bytes_eqb data (xml_bytes doc))
                  [full_doc; doc_no_fraction; doc_empty_curve; ragged_doc] with
  | Some doc => Ok doc
  | None => Error (ExternalError "ParseError")
  end.

(** The value of a string of decimal digits, most significant first; a
    single underscore may separate two digits.  [acc] is the value read so
    far, [after_digit] tells whether the previous character was a digit. *)
Fixpoint int_digits (acc : Z) (after_digit : bool) (s : string) : option Z :=
  match s with
  | EmptyString => if after_digit then Some acc else None
  | String c rest =>
      if is_digit c then int_digits (10 * acc + digit_value c) true rest
      else if Ascii.eqb c "_" && after_digit then int_digits acc false rest
      else None
  end.

(** [float] on strings of digits, whose values are the integers they
    denote. *)
Definition sample_float (s : string) : result Z :=
  match int_digits 0 false s with
  | Some v => Ok v
  | None => Error (ValueError (InvalidFloatLiteral s))
  end.

(** A stand-in for [int] on the wavelength texts of the samples: a string
    made of an optional sign and ASCII decimal digits, where a single
    underscore may separate two digits, is read as the integer it denotes,
    as the built-in reads such a string of up to 4300 digits.  Every other
    string is refused here; the built-in accepts more (white space around
    the number, decimal digits outside ASCII), and no sample passes such a
    string. *)
Definition sample_int (s : string) : result Z :=
  let fail := Error (ValueError (InvalidIntLiteral s)) in
  match s with
  | String "-" digits =>
      match int_digits 0 false digits with Some v => Ok (- v) | None => fail end
  | String "+" digits =>
      match int_digits 0 false digits with Some v => Ok v | None => fail end
  | digits =>
      match int_digits 0 false digits with Some v => Ok v | None => fail end
  end.

(** Calling a module, a class or a built-in on a tuple of lists; no path of
    the samples reaches it. *)
Definition sample_call (f : pyobject) (nice : list (list (pyval Z)))
  : result (list (list (pyval Z))) :=
  Error TypeError.

(** The constructor on the sample file system. *)
Definition sample_init : string -> list string -> bool -> io (UNICORNZipExport Z) :=
  __init__ sample_float sample_int sample_ZipFile sample_parse sample_call.

(** Strings made of decimal digits only. *)
Fixpoint all_digits (s : string) : bool :=
  match s with
  | EmptyString => true
  | String c rest => is_digit c && all_digits rest
  end.

(** The body of the loop of [_get_ro] for one curve, up to the insertion
    into the mapping: the display name of the curve and its read-out. *)
Definition read_curve (py_int : string -> result Z)
  (ZipFile : zip_source -> result archive)
  (self_do : list string) (ar : archive) (curve : element)
  : io (string * _ReadOut) :=
  f_name ← pure_step (unpack1 (iter "BinaryCurvePointsFileName" curve));
  buf ← io_step (ReadEntry (text f_name)) (zip_read ar (text f_name));
  ms ← pure_step (_decode_ro_buf ZipFile self_do buf);
  let us := _get_ro_units self_do curve in
  cn_text ← pure_step (text_of (find "Name" curve));
  '(name, wl) ← pure_step (correct_name_of_text py_int cn_text);
  mret (name, mk_ReadOut ms us wl).

(** [d[k] = v] for each item in turn. *)
Definition store {K V} `{Countable K} (m : gmap K V) (kv : K * V) : gmap K V :=
  <[kv.1 := kv.2]> m.

(** The first of the three expected event types that a mapping lacks. *)
Definition first_missing {V} (events : gmap (option string) V) : option string :=
  List.find (fun k => bool_decide (events !! Some k = None))
            ["Fraction"; "Injection"; "Logbook"].

(** The entry name a curve refers to: the text of its only
    [BinaryCurvePointsFileName] element. *)
Definition blob_name (curve : element) : option string :=
  match iter "BinaryCurvePointsFileName" curve with
  | [f_name] => text f_name
  | _ => None
  end.

(** A run with two curves whose raw names normalise to the same display
    name. *)
Definition twin_doc : element :=
  node "Chromatogram"
    [ node "Curves" [curve "Cond" "Chrom.1_1_True";
                     curve "Conductance" "Chrom.1_2_True"] ].

(** A curve with the unit element of the volume axis only. *)
Definition volume_only_curve : element :=
  node "Curve"
    [ leaf "Name" "pH";
      leaf "VolumeUnit" "ml";
      node "CurvePoints"
        [node "CurvePoint" [leaf "BinaryCurvePointsFileName" "Chrom.1_1_True"]] ].

Definition twin_files : archive :=
  <["Chrom.1_1_True" := curve_zip ++ curve_padding]>
  (<["Chrom.1_2_True" := ragged_zip ++ ragged_padding]> ∅).

(** A run with two Fraction event curves. *)
Definition twice_doc : element :=
  node "Chromatogram"
    [ node "EventCurves"
        [ event_curve "Fraction" [event "10" "A1"];
          event_curve "Logbook" [event "0" "Start"];
          event_curve "Fraction" [event "30" "B1"; event "32" "B2"] ] ].

(** A second sample file system: an export without event curves. *)
Definition twin_export : archive :=
  <["Chrom.1.Xml" := xml_bytes twin_doc]> twin_files.

Definition twin_ZipFile (source : zip_source) : result archive :=
  match source with
  | Path f_name =>
      if String.eqb f_name "twin.zip" then Ok twin_export
      else Error (ExternalError "FileNotFoundError")
  | BytesIO data => sample_ZipFile (BytesIO data)
  end.

Definition twin_parse (data : bytes) : result element :=
  if bytes_eqb data (xml_bytes twin_doc) then Ok twin_doc
  else Error (ExternalError "ParseError").

Definition twin_init : string -> list string -> bool -> io (UNICORNZipExport Z) :=
  __init__ sample_float sample_int twin_ZipFile twin_parse sample_call.

(** The generator after [n] calls of [next]. *)
Fixpoint advance {A} (n : nat) (g : generator A) : generator A :=
  match n with
  | O => g
  | S n' => advance n' (next g).2
  end.

(** * Properties *)

(** ** Searching bytes *)

Lemma bytes_eqb_eq (a b : bytes) : bytes_eqb a b = true <-> a = b.
Proof.
  revert b. induction a as [|x a IH]; intros [|y b]; simpl; try (split; congruence).
  rewrite andb_true_iff, IH. split.
  - intros [Hxy ->]. f_equal. now apply Byte.byte_dec_bl.
  - intros [= -> ->]. split; [now apply Byte.byte_dec_lb | reflexivity].
Qed.

Lemma occurs_atb_spec sub i buf :
  occurs_atb sub i buf = true <-> occurs_at sub i buf.
Proof. apply bytes_eqb_eq. Qed.

Lemma occurs_atb_false sub i buf :
  occurs_atb sub i buf = false <-> ~ occurs_at sub i buf.
Proof.
  rewrite <- occurs_atb_spec. destruct (occurs_atb sub i buf); split; congruence.
Qed.

Lemma occurs_at_cons sub j b buf :
  occurs_at sub (S j) (b :: buf) <-> occurs_at sub j buf.
Proof. reflexivity. Qed.

(** An occurrence fixes the bytes it covers. *)
Lemma occurs_at_lookup sub j buf k :
  occurs_at sub j buf -> (k < length sub)%nat ->
  buf !! (j + k)%nat = sub !! k.
Proof.
  unfold occurs_at. intros H Hk.
  assert (E : sub !! k = take (length sub) (drop j buf) !! k) by now rewrite H.
  rewrite E, lookup_take_lt by exact Hk.
  now rewrite lookup_drop.
Qed.

Lemma occurs_at_bound sub j buf :
  occurs_at sub j buf -> sub <> [] -> (j + length sub <= length buf)%nat.
Proof.
  unfold occurs_at. intros H Hne.
  destruct sub as [|x sub]; [congruence|].
  apply (f_equal length) in H.
  rewrite length_take, length_drop in H.
  change (length (x :: sub)) with (S (length sub)) in *. lia.
Qed.

(** [rfind] answers the highest offset of an occurrence, and [None] only
    when there is none. *)
Lemma rfind_spec sub buf :
  match rfind sub buf with
  | Some i =>
      occurs_at sub i buf /\ (i <= length buf)%nat
      /\ forall j, (i < j <= length buf)%nat -> ~ occurs_at sub j buf
  | None => forall j, (j <= length buf)%nat -> ~ occurs_at sub j buf
  end.
Proof.
  induction buf as [|b buf IH]; simpl.
  - destruct (occurs_atb sub 0 []) eqn:E.
    + apply occurs_atb_spec in E. repeat split; [exact E | lia | intros j Hj; lia].
    + apply occurs_atb_false in E. intros j Hj. now assert (j = 0%nat) as -> by lia.
  - destruct (rfind sub buf) as [i|].
    + destruct IH as (Ho & Hi & Hlast). repeat split; [exact Ho | lia |].
      intros [|j] Hj; [lia|]. rewrite occurs_at_cons. apply Hlast. lia.
    + destruct (occurs_atb sub 0 (b :: buf)) eqn:E.
      * apply occurs_atb_spec in E. repeat split; [exact E | lia |].
        intros [|j] Hj; [lia|]. rewrite occurs_at_cons. apply IH. lia.
      * apply occurs_atb_false in E.
        intros [|j] Hj; [exact E|]. rewrite occurs_at_cons. apply IH. lia.
Qed.

Lemma rfind_Some sub buf i :
  rfind sub buf = Some i <->
  occurs_at sub i buf /\ (i <= length buf)%nat
  /\ forall j, (i < j <= length buf)%nat -> ~ occurs_at sub j buf.
Proof.
  pose proof (rfind_spec sub buf) as H.
  destruct (rfind sub buf) as [i'|]; split.
  - now intros [= <-].
  - destruct H as (Ho & Hi & Hlast). intros (Ho' & Hi' & Hlast'). f_equal.
    destruct (Nat.lt_trichotomy i i') as [Hlt|[->|Hgt]]; [|reflexivity|].
    + destruct (Hlast' i'); [lia | exact Ho].
    + destruct (Hlast i); [lia | exact Ho'].
  - discriminate.
  - intros (Ho & Hi & _). destruct (H i Hi Ho).
Qed.

Lemma rfind_None sub buf :
  rfind sub buf = None <->
  forall j, (j <= length buf)%nat -> ~ occurs_at sub j buf.
Proof.
  pose proof (rfind_spec sub buf) as H.
  destruct (rfind sub buf) as [i|]; split.
  - discriminate.
  - destruct H as (Ho & Hi & _). intros Hn. destruct (Hn i Hi Ho).
  - intros _. exact H.
  - reflexivity.
Qed.

Lemma marker_nonempty : eocd_marker <> [].
Proof. discriminate. Qed.

Lemma rfind_last_occurrence buf i :
  rfind eocd_marker buf = Some i ->
  forall j, occurs_at eocd_marker j buf -> (j <= i)%nat.
Proof.
  intros Hr j Ho. apply rfind_Some in Hr as (_ & _ & Hlast).
  pose proof (occurs_at_bound _ _ _ Ho marker_nonempty).
  destruct (Nat.le_gt_cases j i) as [|Hgt]; [assumption|].
  destruct (Hlast j); [lia | exact Ho].
Qed.

Lemma rfind_marker_free buf :
  rfind eocd_marker buf = None -> marker_free buf.
Proof.
  intros Hr j Ho. pose proof (occurs_at_bound _ _ _ Ho marker_nonempty).
  apply (proj1 (rfind_None _ _) Hr j); [lia | exact Ho].
Qed.

(** Occurrences in a concatenation lie in the left part, in the right part,
    or across the seam. *)
Lemma occurs_at_app_l sub j c p :
  (j + length sub <= length c)%nat ->
  occurs_at sub j (c ++ p) <-> occurs_at sub j c.
Proof.
  intros Hj. unfold occurs_at.
  rewrite drop_app_le by lia.
  rewrite take_app_le by (rewrite length_drop; lia). reflexivity.
Qed.

Lemma occurs_at_app_r sub j c p :
  (length c <= j)%nat ->
  occurs_at sub j (c ++ p) <-> occurs_at sub (j - length c) p.
Proof.
  intros Hj. unfold occurs_at. rewrite drop_app_ge by lia. reflexivity.
Qed.

(** No occurrence of the marker can start inside a well-formed container and
    end in what follows it: it would cover the container's last byte, which
    is zero. *)
Lemma no_marker_across_seam c p j :
  drop (length c - 2) c = [x00; x00] ->
  (j < length c < j + length eocd_marker)%nat ->
  ~ occurs_at eocd_marker j (c ++ p).
Proof.
  intros Hz Hj Ho.
  assert (Hlen : (2 <= length c)%nat).
  { apply (f_equal length) in Hz. rewrite length_drop in Hz. simpl in Hz. lia. }
  assert (Hlast : c !! (length c - 1)%nat = Some x00).
  { assert (E : drop (length c - 2) c !! 1%nat = Some x00) by now rewrite Hz.
    rewrite lookup_drop in E. rewrite <- E. f_equal. lia. }
  change (length eocd_marker) with 4%nat in Hj.
  assert (Hk : (c ++ p) !! (j + (length c - 1 - j))%nat
               = eocd_marker !! (length c - 1 - j)%nat).
  { apply occurs_at_lookup; [exact Ho | simpl; lia]. }
  replace (j + (length c - 1 - j))%nat with (length c - 1)%nat in Hk by lia.
  rewrite lookup_app_l in Hk by lia. rewrite Hlast in Hk.
  assert (Hc : (length c - 1 - j = 0 \/ length c - 1 - j = 1
                \/ length c - 1 - j = 2)%nat) by lia.
  destruct Hc as [E|[E|E]]; rewrite E in Hk; discriminate.
Qed.

(** C4.  A well-formed embedded container followed by any number of padding
    bytes without the marker: boundary detection returns the length of the
    container; on a buffer where the marker occurs nowhere it fails
    (ValueError "subsection not found", the spec's MalformedBuffer). *)
Theorem padding_start_recovers_container_length :
  (forall c padding : bytes,
      well_formed_container c -> marker_free padding ->
      _get_padding_start (c ++ padding) = Ok (length c))
  /\ (forall buf : bytes,
      marker_free buf ->
      _get_padding_start buf = Error (ValueError SubsectionNotFound)).
Proof.
  split.
  - intros c padding (Hlen & Hocc & Hzero & Hlast) Hfree.
    unfold eocd_len in *.
    assert (Hr : rfind eocd_marker (c ++ padding) = Some (length c - 22)%nat).
    { apply rfind_Some. rewrite length_app. repeat split.
      - apply occurs_at_app_l; [simpl; lia | exact Hocc].
      - lia.
      - intros j Hj Ho.
        destruct (Nat.le_gt_cases (j + length eocd_marker) (length c)) as [Hin|Hout].
        + apply occurs_at_app_l in Ho; [|exact Hin]. apply Hlast in Ho. lia.
        + destruct (Nat.le_gt_cases (length c) j) as [Hr|Hl].
          * apply occurs_at_app_r in Ho; [|exact Hr]. exact (Hfree _ Ho).
          * exact (no_marker_across_seam c padding j Hzero (conj Hl Hout) Ho). }
    unfold _get_padding_start, rindex. rewrite Hr. simpl. do 2 f_equal. lia.
  - intros buf Hfree. unfold _get_padding_start, rindex.
    destruct (rfind eocd_marker buf) as [i|] eqn:Hr; [|reflexivity].
    apply rfind_Some in Hr as (Ho & _). destruct (Hfree _ Ho).
Qed.

Lemma padding_start_recovers_container_length_witness :
  _get_padding_start (empty_zip ++ [xff; x50; x4b; x05; x00]) = Ok 22%nat
  /\ _get_padding_start [x50; x4b; x03; x04; x00] = Error (ValueError SubsectionNotFound).
Proof.
  split.
  - apply (proj1 padding_start_recovers_container_length empty_zip).
    + repeat split; [vm_compute; lia | apply rfind_last_occurrence; reflexivity].
    + apply rfind_marker_free. reflexivity.
  - apply (proj2 padding_start_recovers_container_length).
    apply rfind_marker_free. reflexivity.
Defined.

(** ** Float decoding *)

Lemma f4_elements_length (data : bytes) (k : nat) :
  length data = (4 * k)%nat -> length (f4_elements data) = k.
Proof.
  revert data. induction k as [|k IH]; intros data Hlen.
  - destruct data; [reflexivity | discriminate].
  - destruct data as [|b0 [|b1 [|b2 [|b3 rest]]]]; simpl in Hlen; try lia.
    simpl. f_equal. apply IH. lia.
Qed.

(** Element [i] of the decoded array is the little-endian reading of bytes
    [4i .. 4i+3] of the data. *)
Lemma f4_elements_lookup (data : bytes) (i : nat) b0 b1 b2 b3 :
  data !! (4 * i)%nat = Some b0 -> data !! (4 * i + 1)%nat = Some b1 ->
  data !! (4 * i + 2)%nat = Some b2 -> data !! (4 * i + 3)%nat = Some b3 ->
  f4_elements data !! i = Some (le32 b0 b1 b2 b3).
Proof.
  revert data. induction i as [|i IH]; intros data H0 H1 H2 H3.
  - destruct data as [|c0 [|c1 [|c2 [|c3 rest]]]]; simpl in *; try discriminate.
    congruence.
  - destruct data as [|c0 [|c1 [|c2 [|c3 rest]]]];
      try (apply lookup_lt_Some in H3; simpl in H3; lia).
    simpl f4_elements. rewrite lookup_cons_ne_0 by lia. simpl.
    apply IH.
    + replace (4 * S i)%nat with (S (S (S (S (4 * i))))) in H0 by lia. exact H0.
    + replace (4 * S i + 1)%nat with (S (S (S (S (4 * i + 1))))) in H1 by lia. exact H1.
    + replace (4 * S i + 2)%nat with (S (S (S (S (4 * i + 2))))) in H2 by lia. exact H2.
    + replace (4 * S i + 3)%nat with (S (S (S (S (4 * i + 3))))) in H3 by lia. exact H3.
Qed.

(** The slice bound [prefix_len % float_len - float_len] is the constant -1:
    the method always drops exactly the last byte. *)
Lemma decode_binary_data_unfold (buf : bytes) :
  _decode_binary_data buf = np_frombuffer_f4 (take (length buf - 1) buf) 27.
Proof.
  unfold _decode_binary_data, slice_to.
  change (3 + 6 * 4) with 27. change (27 mod 4 - 4) with (-1).
  change (-1 <? 0) with true. cbv iota. do 2 f_equal. lia.
Qed.

Lemma np_frombuffer_f4_27 (b : bytes) :
  np_frombuffer_f4 b 27 =
    if decide (length b < 27)%nat then Error (ValueError OffsetOutOfRange)
    else if decide ((length b - 27) mod 4 = 0)%nat
         then Ok (f4_elements (drop 27 b))
         else Error (ValueError BufferSizeNotMultiple).
Proof.
  unfold np_frombuffer_f4. change (27 <? 0) with false. cbv [orb].
  destruct (decide (length b < 27)%nat) as [Hlt|Hge].
  - destruct (Z.ltb_spec (Z.of_nat (length b)) 27); [reflexivity | lia].
  - destruct (Z.ltb_spec (Z.of_nat (length b)) 27); [lia|].
    replace (Z.of_nat (length b) - 27) with (Z.of_nat (length b - 27)) by lia.
    change 4 with (Z.of_nat 4). rewrite <- Nat2Z.inj_mod.
    destruct (decide ((length b - 27) mod 4 = 0)%nat) as [E|E].
    + rewrite E. reflexivity.
    + destruct (Z.eqb_spec (Z.of_nat ((length b - 27) mod 4)) 0); [lia | reflexivity].
Qed.

(** What the method does on a buffer made of a 27-byte prefix, [k] whole
    floats and [r < 4] further bytes: it succeeds, with the [k] floats, only
    for [r = 1]. *)
Lemma decode_binary_data_by_length (prefix payload tail : bytes) (k : nat) :
  length prefix = 27%nat -> length payload = (4 * k)%nat ->
  (length tail < 4)%nat ->
  _decode_binary_data (prefix ++ payload ++ tail) =
    match length tail with
    | 1%nat => Ok (f4_elements payload)
    | 0%nat => Error (ValueError (if decide (k = 0%nat) then OffsetOutOfRange
                                  else BufferSizeNotMultiple))
    | _ => Error (ValueError BufferSizeNotMultiple)
    end.
Proof.
  intros Hp Hk Ht. rewrite decode_binary_data_unfold, np_frombuffer_f4_27.
  rewrite length_take, !length_app, Hp, Hk.
  destruct tail as [|t0 [|t1 [|t2 [|t3 tail]]]]; simpl length in *; try lia.
  - destruct (decide (k = 0%nat)) as [->|Hk0].
    + destruct (decide _) as [|Hn]; [reflexivity | lia].
    + destruct (decide _) as [|_]; [lia|].
      destruct (decide _) as [E|]; [|reflexivity].
      exfalso. replace (_ - 27)%nat with (3 + (k - 1) * 4)%nat in E by lia.
      rewrite Nat.Div0.mod_add in E. discriminate.
  - destruct (decide _) as [|_]; [lia|].
    destruct (decide _) as [_|E].
    + do 2 f_equal.
      replace (27 + (4 * k + 1) - 1)%nat with (length (prefix ++ payload))
        by (rewrite length_app; lia).
      rewrite app_assoc, take_app_length.
      rewrite <- Hp. apply drop_app_length.
    + destruct E. replace (_ - 27)%nat with (0 + k * 4)%nat by lia.
      apply Nat.Div0.mod_add.
  - destruct (decide _) as [|_]; [lia|].
    destruct (decide _) as [E|]; [|reflexivity].
    exfalso. replace (_ - 27)%nat with (1 + k * 4)%nat in E by lia.
    rewrite Nat.Div0.mod_add in E. discriminate.
  - destruct (decide _) as [|_]; [lia|].
    destruct (decide _) as [E|]; [|reflexivity].
    exfalso. replace (_ - 27)%nat with (2 + k * 4)%nat in E by lia.
    rewrite Nat.Div0.mod_add in E. discriminate.
Qed.

(** C1.  The float-decoding step on buffers of length [27 + 4k + r]: with
    the 27-byte prefix followed by exactly one float ([k = 1, r = 0]) it
    raises ValueError instead of yielding that float; with the prefix alone
    ([k = 0, r = 0]) it raises as well; with two or three trailing bytes
    it raises; only with exactly one trailing byte does it yield the [k]
    floats. *)
Theorem decode_binary_data_exact_length_raises :
  _decode_binary_data (sample_prefix ++ one_f4)
    = Error (ValueError BufferSizeNotMultiple)
  /\ _decode_binary_data sample_prefix
    = Error (ValueError OffsetOutOfRange)
  /\ _decode_binary_data (sample_prefix ++ one_f4 ++ [xff])
    = Ok [le32 x00 x00 x80 x3f]
  /\ _decode_binary_data (sample_prefix ++ one_f4 ++ [xff; xff])
    = Error (ValueError BufferSizeNotMultiple)
  /\ _decode_binary_data (sample_prefix ++ one_f4 ++ [xff; xff; xff])
    = Error (ValueError BufferSizeNotMultiple).
Proof. repeat split; vm_compute; reflexivity. Qed.

(** For every number [k] of floats, a buffer of exactly [27 + 4k] bytes is
    rejected. *)
Lemma decode_binary_data_rejects_exact (prefix payload : bytes) (k : nat) :
  length prefix = 27%nat -> length payload = (4 * k)%nat ->
  is_ok (_decode_binary_data (prefix ++ payload)) = false.
Proof.
  intros Hp Hk.
  pose proof (decode_binary_data_by_length prefix payload [] k Hp Hk) as H.
  rewrite app_nil_r in H. rewrite H by (simpl; lia). reflexivity.
Qed.

(** With exactly one trailing byte the [k] floats of the payload are
    returned. *)
Lemma decode_binary_data_one_trailing (prefix payload : bytes) (t : byte) (k : nat) :
  length prefix = 27%nat -> length payload = (4 * k)%nat ->
  exists floats,
    _decode_binary_data (prefix ++ payload ++ [t]) = Ok floats
    /\ floats = f4_elements payload /\ length floats = k.
Proof.
  intros Hp Hk. exists (f4_elements payload).
  rewrite (decode_binary_data_by_length prefix payload [t] k Hp Hk) by (simpl; lia).
  repeat split. now apply f4_elements_length.
Qed.

(** ** Name normalisation *)

Lemma contains_char_count c s :
  contains_char c s = negb (Nat.eqb (count_char c s) 0).
Proof.
  induction s as [|b s IH]; [reflexivity|]. simpl.
  destruct (Ascii.eqb c b); [reflexivity | exact IH].
Qed.

Lemma split_char_length c s :
  length (split_char c s) = S (count_char c s).
Proof.
  induction s as [|b s IH]; [reflexivity|]. simpl.
  destruct (Ascii.eqb c b); simpl; [now rewrite IH|].
  destruct (split_char c s); [discriminate | exact IH].
Qed.

Lemma split_char_none c s :
  count_char c s = 0%nat -> split_char c s = [s].
Proof.
  induction s as [|x s IH]; [reflexivity|]. simpl.
  destruct (Ascii.eqb c x); [discriminate|].
  intros H0. now rewrite (IH H0).
Qed.

(** Splitting at the only separator cuts the string in two around it. *)
Lemma split_char_once c s :
  count_char c s = 1%nat ->
  exists a b, split_char c s = [a; b] /\ s = a +:+ String c b
              /\ count_char c a = 0%nat /\ count_char c b = 0%nat.
Proof.
  induction s as [|x s IH]; [discriminate|]. simpl.
  destruct (Ascii.eqb_spec c x) as [->|Hne]; simpl.
  - intros [= H0]. exists EmptyString, s.
    rewrite (split_char_none _ _ H0). repeat split. exact H0.
  - intros H1. destruct (IH H1) as (a & b & Hs & -> & Ha & Hb).
    exists (String x a), b. rewrite Hs. repeat split; [|exact Hb].
    simpl. destruct (Ascii.eqb_spec c x); [contradiction | exact Ha].
Qed.

Lemma better_names_items :
  better_names = list_to_map renamings.
Proof. reflexivity. Qed.

(** C6 (amended).  For any behaviour of the built-in [int]: a raw name that
    starts with UV and contains exactly one underscore splits at it into the
    display name and the wavelength text, and the result is the display name
    with the integer that [int] reads from that text, or the exception of
    [int] when it refuses the text.  A raw name that does not start with UV,
    or contains no underscore, is renamed by the fixed table when it is one
    of its five keys and kept verbatim otherwise, without wavelength. *)
Theorem correct_curve_name_cases (py_int : string -> result Z) (n : string) :
  (startswith n "UV" = true -> count_char "_" n = 1%nat ->
     exists nice wl,
       split_char "_" n = [nice; wl] /\ n = nice +:+ "_" +:+ wl
       /\ _correct_curve_name py_int n = (w ← py_int wl; Ok (nice, Some w)))
  /\ (startswith n "UV" = false \/ count_char "_" n = 0%nat ->
      _correct_curve_name py_int n = Ok (default n (better_names !! n), None)
      /\ forall v, better_names !! n = Some v <-> (n, v) ∈ renamings).
Proof.
  split.
  - intros Huv H1. destruct (split_char_once _ _ H1) as (a & b & Hs & Hn & _ & _).
    exists a, b. repeat split; [exact Hs | exact Hn |].
    unfold _correct_curve_name.
    rewrite Huv, contains_char_count, H1, Hs. reflexivity.
  - intros Hother. split.
    + unfold _correct_curve_name. rewrite contains_char_count.
      destruct Hother as [-> | ->]; [reflexivity|].
      now rewrite andb_false_r.
    + intros v. rewrite better_names_items.
      rewrite <- elem_of_list_to_map; [reflexivity|].
      apply (bool_decide_unpack _). vm_compute. exact I.
Qed.

Lemma correct_curve_name_cases_witness :
  _correct_curve_name sample_int "UV_280" = Ok ("UV", Some 280)
  /\ _correct_curve_name sample_int "UV_abc"
     = Error (ValueError (InvalidIntLiteral "abc"))
  /\ _correct_curve_name sample_int "Cond" = Ok ("Conductance", None)
  /\ _correct_curve_name sample_int "Unrecognized" = Ok ("Unrecognized", None).
Proof.
  split; [|split; [|split]].
  - destruct (proj1 (correct_curve_name_cases sample_int "UV_280") eq_refl eq_refl)
      as (nice & wl & Hs & _ & Hr).
    rewrite Hr. injection Hs as <- <-. reflexivity.
  - destruct (proj1 (correct_curve_name_cases sample_int "UV_abc") eq_refl eq_refl)
      as (nice & wl & Hs & _ & Hr).
    rewrite Hr. injection Hs as <- <-. reflexivity.
  - destruct (proj2 (correct_curve_name_cases sample_int "Cond") (or_introl eq_refl))
      as (Hr & _).
    rewrite Hr. reflexivity.
  - destruct (proj2 (correct_curve_name_cases sample_int "Unrecognized")
                (or_introl eq_refl)) as (Hr & _).
    rewrite Hr. reflexivity.
Defined.

(** A name that starts with UV and contains two underscores is in neither
    of the two cases of the claim's first half, yet it is not passed through
    the table: unpacking the three pieces raises ValueError, before [int] is
    called. *)
Lemma correct_curve_name_two_underscores :
  startswith "UV_280_1" "UV" = true
  /\ count_char "_" "UV_280_1" = 2%nat
  /\ _correct_curve_name sample_int "UV_280_1"
     = Error (ValueError (UnpackMismatch 2 3))
  /\ _correct_curve_name sample_int "UV_280_1"
     <> Ok (default "UV_280_1" (better_names !! "UV_280_1"), None).
Proof. split; [|split; [|split]]; [reflexivity .. | discriminate]. Qed.

(** Every name that starts with UV and contains two or more underscores is
    rejected in that way, whatever [int] does. *)
Lemma correct_curve_name_many_underscores (py_int : string -> result Z) (n : string) :
  startswith n "UV" = true -> (2 <= count_char "_" n)%nat ->
  _correct_curve_name py_int n
  = Error (ValueError (UnpackMismatch 2 (S (count_char "_" n)))).
Proof.
  intros Huv H2. unfold _correct_curve_name.
  rewrite Huv, contains_char_count.
  destruct (count_char "_" n) as [|[|m]] eqn:E; try lia.
  pose proof (split_char_length "_" n) as Hl. rewrite E in Hl.
  simpl. destruct (split_char "_" n) as [|a [|b [|c r]]]; try discriminate.
  simpl. rewrite <- Hl. reflexivity.
Qed.


(** ** The export reader *)

(** The first access of a computation that starts with one. *)
Lemma trace_io_step {A B} (ev : io_event) (r : result A) (k : A -> io B) :
  trace (io_step ev r ≫= k)
  = ev :: match r with Ok a => trace (k a) | Error _ => [] end.
Proof.
  unfold io_step. cbn [mbind io_bind]. destruct r as [a|e]; [|reflexivity].
  destruct (k a) as [t r']. reflexivity.
Qed.

Lemma load_global_reverse : load_global "reverse" = Error (NameError "reverse").
Proof. reflexivity. Qed.


(** ** Transposition of rows *)

Lemma heads_pairs {A B} (f : A -> B) (g : A -> list B) (ps : list A) :
  heads (map (fun p => f p :: g p) ps) = Some (map f ps).
Proof.
  unfold heads. induction ps as [|p ps IH]; [reflexivity|].
  cbn [map mapM]. cbn [head]. rewrite IH. reflexivity.
Qed.

Lemma zip_rows_pairs {A B} (f g : A -> B) (ps : list A) :
  zip_rows 2 (map (fun p => [f p; g p]) ps) = [map f ps; map g ps].
Proof.
  cbn [zip_rows]. rewrite (heads_pairs f (fun p => [g p])).
  rewrite map_map. cbn [drop].
  rewrite (heads_pairs g (fun _ => [])). reflexivity.
Qed.

(** Rows of two items transpose into two columns, unless there is no row. *)
Lemma zip_star_pairs {A B} (f g : A -> B) (ps : list A) :
  zip_star (map (fun p => [f p; g p]) ps)
  = match ps with [] => [] | _ => [map f ps; map g ps] end.
Proof.
  destruct ps as [|p ps]; [reflexivity|].
  exact (zip_rows_pairs f g (p :: ps)).
Qed.

Lemma map_result_Forall2 {A B} (f : A -> result B) (xs : list A) (ys : list B) :
  Forall2 (fun x y => f x = Ok y) xs ys -> map_result f xs = Ok ys.
Proof.
  induction 1 as [|x y xs ys Hxy _ IH]; [reflexivity|].
  cbn [map_result]. rewrite Hxy. cbn. rewrite IH. reflexivity.
Qed.

Lemma map_result_Ok_Forall2 {A B} (f : A -> result B) (xs : list A) (ys : list B) :
  map_result f xs = Ok ys -> Forall2 (fun x y => f x = Ok y) xs ys.
Proof.
  revert ys. induction xs as [|x xs IH]; intros ys; cbn [map_result].
  - intros [= <-]. constructor.
  - destruct (f x) as [y|] eqn:Hx; [|discriminate]. cbn.
    destruct (map_result f xs) as [ys'|]; [|discriminate]. cbn.
    intros [= <-]. constructor; [exact Hx | now apply IH].
Qed.

Lemma map_result_map {A B C} (f : B -> result C) (g : A -> B) (xs : list A) :
  map_result f (map g xs) = map_result (fun x => f (g x)) xs.
Proof.
  induction xs as [|x xs IH]; [reflexivity|].
  cbn [map map_result]. now rewrite IH.
Qed.

(** Loop invariants. *)
Lemma for_result_invariant {A S} (P : S -> Prop) (body : S -> A -> result S)
    (xs : list A) (acc acc' : S) :
  P acc ->
  (forall s x s', x ∈ xs -> P s -> body s x = Ok s' -> P s') ->
  for_result body xs acc = Ok acc' -> P acc'.
Proof.
  revert acc. induction xs as [|x xs IH]; intros acc Hacc Hstep; cbn [for_result].
  - now intros [= <-].
  - destruct (body acc x) as [s|] eqn:Hb; [|discriminate]. cbn.
    apply IH.
    + apply (Hstep acc x s); [left | exact Hacc | exact Hb].
    + intros s0 x0 s' Hin. apply Hstep. now right.
Qed.

Lemma for_io_invariant {A S} (P : S -> Prop) (body : S -> A -> io S)
    (xs : list A) (acc acc' : S) :
  P acc ->
  (forall s x s', x ∈ xs -> P s -> outcome (body s x) = Ok s' -> P s') ->
  outcome (for_io body xs acc) = Ok acc' -> P acc'.
Proof.
  revert acc. induction xs as [|x xs IH]; intros acc Hacc Hstep; cbn [for_io].
  - now intros [= <-].
  - destruct (body acc x) as [t [s|e]] eqn:Hb; cbn [mbind io_bind];
      [|discriminate].
    destruct (for_io body xs s) as [t' r] eqn:Hrest. cbn [outcome snd].
    intros ->. apply (IH s).
    + apply (Hstep acc x s); [left | exact Hacc | now rewrite Hb].
    + intros s0 x0 s' Hin. apply Hstep. now right.
    + now rewrite Hrest.
Qed.

(** ** Generators *)

Lemma generate_map {A B C} (f : B -> result C) (g : A -> B) (xs : list A) :
  generate f (map g xs) = generate (fun x => f (g x)) xs.
Proof.
  induction xs as [|x xs IH]; [reflexivity|].
  cbn [map generate]. now rewrite IH.
Qed.

(** Every item a generator yields is the outcome for the input at the same
    position. *)
Lemma generate_yielded {A B} (f : A -> result B) (xs : list A) (i : nat) (y : B) :
  yielded (generate f xs) !! i = Some y ->
  exists x, xs !! i = Some x /\ f x = Ok y.
Proof.
  revert i. induction xs as [|x xs IH]; intros i; cbn [generate].
  - cbn. now rewrite lookup_nil.
  - destruct (f x) as [y0|e] eqn:Hx; cbn [yielded].
    + destruct i as [|i]; cbn.
      * intros [= <-]. now exists x.
      * intros Hi. apply IH in Hi as (x' & Hx' & Hy). now exists x'.
    + now rewrite lookup_nil.
Qed.

Lemma generate_length {A B} (f : A -> result B) (xs : list A) :
  (length (yielded (generate f xs)) <= length xs)%nat.
Proof.
  induction xs as [|x xs IH]; cbn [generate]; [reflexivity|].
  destruct (f x); cbn [yielded length]; lia.
Qed.

(** A generator whose inputs all have an outcome yields one item per input
    and ends by exhaustion. *)
Lemma generate_complete {A B} (f : A -> result B) (xs : list A) :
  (forall x, x ∈ xs -> is_ok (f x) = true) ->
  length (yielded (generate f xs)) = length xs
  /\ raised (generate f xs) = None.
Proof.
  induction xs as [|x xs IH]; intros Hall; cbn [generate]; [now split|].
  pose proof (Hall x ltac:(left)) as Hx.
  destruct (f x) as [y|e]; [|discriminate Hx].
  destruct IH as [Hl Hr]; [intros x' Hin; apply Hall; now right|].
  cbn [yielded raised length]. split; [now rewrite Hl | exact Hr].
Qed.

(** A generator that raises does so for the first input without outcome,
    after the items of the inputs before it. *)
Lemma generate_raised {A B} (f : A -> result B) (xs : list A) (e : exn) :
  raised (generate f xs) = Some e ->
  exists x, xs !! length (yielded (generate f xs)) = Some x /\ f x = Error e.
Proof.
  induction xs as [|x xs IH]; cbn [generate]; [discriminate|].
  destruct (f x) as [y|e0] eqn:Hx; cbn [yielded raised length].
  - intros Hr. apply IH in Hr as (x' & Hx' & He). now exists x'.
  - intros [= <-]. now exists x.
Qed.

Lemma get_ro_units_axes (self_do : list string) (curve : element) :
  _get_ro_units self_do curve = generate (axis_unit curve) self_do.
Proof. unfold _get_ro_units. now rewrite generate_map. Qed.

(** * Further properties of the decoding steps *)

(** ** Boundary detection *)

Lemma occurs_at_marker_bound j buf :
  occurs_at eocd_marker j buf -> (j + 4 <= length buf)%nat.
Proof. intros Ho. exact (occurs_at_bound _ _ _ Ho marker_nonempty). Qed.

Lemma padding_start_iff (buf : bytes) (stop : nat) :
  _get_padding_start buf = Ok stop <->
  (22 <= stop)%nat /\ rfind eocd_marker buf = Some (stop - 22)%nat.
Proof.
  unfold _get_padding_start, rindex.
  destruct (rfind eocd_marker buf) as [i|]; cbn.
  - split.
    + intros [= <-]. split; [lia|]. f_equal. lia.
    + intros [Hlo [= ->]]. f_equal. lia.
  - split; [discriminate | intros [_ H]; discriminate H].
Qed.

Lemma rfind_marker_iff (buf : bytes) (i : nat) :
  rfind eocd_marker buf = Some i <->
  occurs_at eocd_marker i buf
  /\ forall j, occurs_at eocd_marker j buf -> (j <= i)%nat.
Proof.
  split.
  - intros Hr. split; [now apply rfind_Some in Hr as (Ho & _)|].
    now apply rfind_last_occurrence.
  - intros (Ho & Hlast). apply rfind_Some.
    pose proof (occurs_at_marker_bound _ _ Ho).
    repeat split; [exact Ho | lia |].
    intros j Hj Hoj. specialize (Hlast j Hoj). lia.
Qed.

(** X1.  Boundary detection returns [stop] exactly when the marker occurs
    at offset [stop - 22] and nowhere later.  Nothing is checked about the
    18 bytes that should follow the marker, so [stop] may lie up to 18
    bytes beyond the end of the buffer. *)
Theorem padding_start_is_last_marker (buf : bytes) (stop : nat) :
  _get_padding_start buf = Ok stop <->
  (22 <= stop <= length buf + 18)%nat
  /\ occurs_at eocd_marker (stop - 22) buf
  /\ forall j, occurs_at eocd_marker j buf -> (j + 22 <= stop)%nat.
Proof.
  rewrite padding_start_iff, rfind_marker_iff. split.
  - intros (Hlo & Ho & Hlast).
    pose proof (occurs_at_marker_bound _ _ Ho).
    repeat split; [lia | lia | exact Ho |].
    intros j Hj. specialize (Hlast j Hj). lia.
  - intros ((Hlo & _) & Ho & Hlast). repeat split; [lia | exact Ho |].
    intros j Hj. specialize (Hlast j Hj). lia.
Qed.

(** X2.  A marker inside what follows a container misleads the detection:
    the boundary then lies beyond the container, at or after the end of
    that later marker's 22 bytes. *)
Theorem padding_start_later_marker (c padding : bytes) (j : nat) :
  occurs_at eocd_marker j padding ->
  exists stop,
    _get_padding_start (c ++ padding) = Ok stop
    /\ (length c + j + 22 <= stop)%nat.
Proof.
  intros Ho.
  assert (Hocc : occurs_at eocd_marker (length c + j) (c ++ padding)).
  { apply occurs_at_app_r; [lia|]. now replace (length c + j - length c)%nat with j by lia. }
  unfold _get_padding_start, rindex.
  destruct (rfind eocd_marker (c ++ padding)) as [i|] eqn:Hr.
  - exists (i + 22)%nat. split; [reflexivity|].
    pose proof (rfind_last_occurrence _ _ Hr _ Hocc). lia.
  - destruct (rfind_marker_free _ Hr _ Hocc).
Qed.

Lemma rfind_shift (sub pre buf : bytes) (i : nat) :
  rfind sub buf = Some i -> rfind sub (pre ++ buf) = Some (length pre + i)%nat.
Proof.
  intros Hr. induction pre as [|x pre IH]; [exact Hr|].
  cbn [app rfind length]. now rewrite IH.
Qed.

(** X3.  Bytes put in front of a buffer shift the boundary by their number,
    whatever they are. *)
Theorem padding_start_shift (pre buf : bytes) (stop : nat) :
  _get_padding_start buf = Ok stop ->
  _get_padding_start (pre ++ buf) = Ok (length pre + stop)%nat.
Proof.
  unfold _get_padding_start, rindex.
  destruct (rfind eocd_marker buf) as [i|] eqn:Hr; [|discriminate].
  cbn. intros [= <-]. rewrite (rfind_shift _ pre _ _ Hr). cbn.
  f_equal. lia.
Qed.

Lemma occurs_at_take sub j n buf :
  (j + length sub <= n)%nat ->
  occurs_at sub j (take n buf) <-> occurs_at sub j buf.
Proof.
  intros Hj. unfold occurs_at.
  replace n with (j + (n - j))%nat at 1 by lia.
  rewrite <- take_drop_commute, take_take. replace (length sub `min` (n - j))%nat with (length sub) by lia.
  reflexivity.
Qed.

(** X4.  Trimming is stable: in the region that [_decode_ro_buf] cuts out,
    [buf[:stop]], boundary detection finds the same boundary again, so the
    region handed on ends with the 22 bytes that start at its last marker
    (or with the whole buffer when fewer bytes follow that marker). *)
Theorem padding_start_trim_stable (buf : bytes) (stop : nat) :
  _get_padding_start buf = Ok stop ->
  _get_padding_start (take stop buf) = Ok stop.
Proof.
  rewrite !padding_start_iff, !rfind_marker_iff.
  intros (Hlo & Ho & Hlast). split; [exact Hlo|].
  pose proof (occurs_at_marker_bound _ _ Ho) as Hb. split.
  - apply occurs_at_take; [simpl; lia | exact Ho].
  - intros j Hj. pose proof (occurs_at_marker_bound _ _ Hj) as Hbj.
    rewrite length_take in Hbj.
    apply occurs_at_take in Hj; [|simpl; lia]. now apply Hlast.
Qed.

(** ** Float decoding *)

Lemma decode_binary_data_Ok (buf : bytes) (floats : list f4) :
  _decode_binary_data buf = Ok floats ->
  floats = f4_elements (drop 27 (take (length buf - 1) buf))
  /\ (length buf mod 4 = 0)%nat
  /\ (28 + 4 * length floats = length buf)%nat.
Proof.
  rewrite decode_binary_data_unfold, np_frombuffer_f4_27, length_take.
  destruct (decide _) as [|Hlong]; [discriminate|].
  destruct (decide _) as [Hz|]; [|discriminate].
  intros [= <-]. split; [reflexivity|].
  replace ((length buf - 1) `min` length buf - 27)%nat
    with (length buf - 28)%nat in Hz by lia.
  assert (Hmod : ((length buf - 28) mod 4 = length buf mod 4)%nat).
  { replace (length buf) with ((length buf - 28) + 7 * 4)%nat at 2 by lia.
    now rewrite Nat.Div0.mod_add. }
  split; [now rewrite <- Hmod|].
  apply Nat.Div0.div_exact in Hz.
  assert (Hk : (length (drop 27 (take (length buf - 1) buf))
                = 4 * ((length buf - 28) / 4))%nat)
    by (rewrite length_drop, length_take; lia).
  rewrite (f4_elements_length _ _ Hk). lia.
Qed.

(** X5.  The float-decoding step succeeds exactly on the buffers of at least
    28 bytes whose length is a multiple of 4, and then returns
    [(length - 28) / 4] floats; a shorter buffer is refused for its offset
    and any other length for its size. *)
Theorem decode_binary_data_outcome (buf : bytes) :
  match _decode_binary_data buf with
  | Ok floats =>
      (28 <= length buf)%nat /\ (length buf mod 4 = 0)%nat
      /\ (28 + 4 * length floats = length buf)%nat
  | Error e =>
      ((length buf < 28)%nat /\ e = ValueError OffsetOutOfRange)
      \/ ((28 <= length buf)%nat /\ (length buf mod 4 <> 0)%nat
          /\ e = ValueError BufferSizeNotMultiple)
  end.
Proof.
  destruct (_decode_binary_data buf) as [floats|e] eqn:Hdec.
  - apply decode_binary_data_Ok in Hdec as (_ & Hmod & Hcount).
    repeat split; [lia | exact Hmod | exact Hcount].
  - rewrite decode_binary_data_unfold, np_frombuffer_f4_27, length_take in Hdec.
    destruct (decide _) as [Hshort|Hlong];
      [left; split; [lia | congruence]|].
    destruct (decide _) as [|Hnz]; [discriminate|].
    right. split; [lia|]. split; [|congruence].
    intros Hmod. apply Hnz.
    replace ((length buf - 1) `min` length buf - 27)%nat
      with (length buf - 28)%nat by lia.
    replace (length buf) with ((length buf - 28) + 7 * 4)%nat in Hmod at 1 by lia.
    now rewrite Nat.Div0.mod_add in Hmod.
Qed.

(** X6.  The float at position [i] of the decoded array is the little-endian
    reading of the four bytes at offsets [27 + 4i .. 27 + 4i + 3] of the
    buffer: the 27 bytes of the prefix and the last byte of the buffer take
    no part in any value. *)
Theorem decode_binary_data_element (buf : bytes) (floats : list f4) (i : nat) :
  _decode_binary_data buf = Ok floats ->
  (i < length floats)%nat ->
  exists b0 b1 b2 b3,
    buf !! (27 + 4 * i)%nat = Some b0
    /\ buf !! (27 + 4 * i + 1)%nat = Some b1
    /\ buf !! (27 + 4 * i + 2)%nat = Some b2
    /\ buf !! (27 + 4 * i + 3)%nat = Some b3
    /\ floats !! i = Some (le32 b0 b1 b2 b3).
Proof.
  intros Hdec Hi.
  apply decode_binary_data_Ok in Hdec as (-> & _ & Hcount).
  assert (Hget : forall k, (k < 4)%nat ->
            exists b, buf !! (27 + 4 * i + k)%nat = Some b
                      /\ drop 27 (take (length buf - 1) buf) !! (4 * i + k)%nat
                         = Some b).
  { intros k Hk.
    assert (Hin : (27 + 4 * i + k < length buf)%nat) by lia.
    apply lookup_lt_is_Some_2 in Hin as [b Hb].
    exists b. split; [exact Hb|].
    rewrite lookup_drop, lookup_take_lt by lia.
    rewrite <- Hb. f_equal; lia. }
  destruct (Hget 0%nat ltac:(lia)) as (b0 & H0 & H0').
  destruct (Hget 1%nat ltac:(lia)) as (b1 & H1 & H1').
  destruct (Hget 2%nat ltac:(lia)) as (b2 & H2 & H2').
  destruct (Hget 3%nat ltac:(lia)) as (b3 & H3 & H3').
  rewrite Nat.add_0_r in H0, H0'.
  exists b0, b1, b2, b3. repeat split; try assumption.
  now apply f4_elements_lookup.
Qed.

Lemma decode_binary_data_element_witness :
  exists b0 b1 b2 b3,
    (sample_prefix ++ one_f4 ++ two_f4 ++ [xff]) !! (27 + 4 * 1)%nat = Some b0
    /\ (sample_prefix ++ one_f4 ++ two_f4 ++ [xff]) !! (27 + 4 * 1 + 1)%nat = Some b1
    /\ (sample_prefix ++ one_f4 ++ two_f4 ++ [xff]) !! (27 + 4 * 1 + 2)%nat = Some b2
    /\ (sample_prefix ++ one_f4 ++ two_f4 ++ [xff]) !! (27 + 4 * 1 + 3)%nat = Some b3
    /\ [le32 x00 x00 x80 x3f; le32 x00 x00 x00 x40] !! 1%nat
       = Some (le32 b0 b1 b2 b3).
Proof.
  apply (decode_binary_data_element
           (sample_prefix ++ one_f4 ++ two_f4 ++ [xff])
           [le32 x00 x00 x80 x3f; le32 x00 x00 x00 x40] 1).
  - reflexivity.
  - simpl. lia.
Defined.

Lemma padding_start_later_marker_witness :
  exists stop,
    _get_padding_start (empty_zip ++ [x00; x50; x4b; x05; x06; x00]) = Ok stop
    /\ (length empty_zip + 1 + 22 <= stop)%nat.
Proof.
  apply (padding_start_later_marker empty_zip [x00; x50; x4b; x05; x06; x00] 1).
  reflexivity.
Defined.

Lemma padding_start_shift_witness :
  _get_padding_start ([xff; xff; xff] ++ empty_zip)
  = Ok (length [xff; xff; xff] + 22)%nat.
Proof.
  apply (padding_start_shift [xff; xff; xff] empty_zip 22). reflexivity.
Defined.

Lemma padding_start_trim_stable_witness :
  _get_padding_start (take 22 (empty_zip ++ [xff; x50; x4b])) = Ok 22%nat.
Proof.
  apply (padding_start_trim_stable (empty_zip ++ [xff; x50; x4b]) 22).
  reflexivity.
Defined.

(** ** Name normalisation *)

Lemma better_names_lookup (n v : string) :
  better_names !! n = Some v <-> (n, v) ∈ renamings.
Proof.
  rewrite better_names_items. rewrite <- elem_of_list_to_map; [reflexivity|].
  apply (bool_decide_unpack _). vm_compute. exact I.
Qed.

Lemma renamings_cases (n v : string) :
  (n, v) ∈ renamings ->
  startswith n "UV" = false
  /\ forall py_int, _correct_curve_name py_int v = Ok (v, None).
Proof.
  unfold renamings. rewrite !elem_of_cons, elem_of_nil.
  intros [H|[H|[H|[H|[H|[]]]]]]; simplify_eq; split; reflexivity.
Qed.

Lemma startswith_empty (s : string) : startswith s "" = true.
Proof. destruct s; reflexivity. Qed.

Lemma startswith_before_separator (a b : string) :
  startswith (a +:+ String "_" b) "UV" = true -> startswith a "UV" = true.
Proof.
  destruct a as [|c1 [|c2 a]]; intros H.
  - vm_compute in H. discriminate H.
  - cbn [String.append startswith] in H.
    apply andb_true_iff in H as [_ H]. apply andb_true_iff in H as [H _].
    vm_compute in H. discriminate H.
  - change (String c1 (String c2 a) +:+ String "_" b)
      with (String c1 (String c2 (a +:+ String "_" b))) in H.
    cbn [startswith] in H |- *.
    rewrite startswith_empty in *. exact H.
Qed.

(** X7.  Display names are stable: whatever display name the normalisation
    returns for a raw name, normalising that display name again returns it
    unchanged and without wavelength.  No display name is itself renamed by
    the table or split as a UV name.  This holds for any behaviour of the
    built-in [int]. *)
Theorem correct_curve_name_stable (py_int : string -> result Z)
    (n d : string) (w : option Z) :
  _correct_curve_name py_int n = Ok (d, w) ->
  _correct_curve_name py_int d = Ok (d, None).
Proof.
  unfold _correct_curve_name at 1.
  destruct (startswith n "UV" && contains_char "_" n) eqn:Hguard.
  - apply andb_true_iff in Hguard as [Huv Hc].
    destruct (split_char "_" n) as [|a [|b [|c r]]] eqn:Hs; try discriminate.
    cbn. destruct (py_int b) as [v|]; [|discriminate]. cbn. intros [= <- _].
    pose proof (split_char_length "_" n) as Hl. rewrite Hs in Hl.
    injection Hl as Hcount. symmetry in Hcount.
    destruct (split_char_once _ _ Hcount) as (a' & b' & Hs' & Hn & Ha & _).
    rewrite Hs in Hs'. injection Hs' as <- <-.
    rewrite Hn in Huv. apply startswith_before_separator in Huv.
    unfold _correct_curve_name.
    rewrite Huv, contains_char_count, Ha. cbn [Nat.eqb negb andb].
    destruct (better_names !! a) as [v'|] eqn:Hlook; [|reflexivity].
    apply better_names_lookup, renamings_cases in Hlook as [Hno _]. congruence.
  - intros [= <- _].
    destruct (better_names !! n) as [v|] eqn:Hlook; cbn [default].
    + apply better_names_lookup, renamings_cases in Hlook as [_ Hv]. apply Hv.
    + unfold _correct_curve_name. rewrite Hguard, Hlook. reflexivity.
Qed.

Lemma correct_curve_name_stable_witness :
  _correct_curve_name sample_int "UV" = Ok ("UV", None)
  /\ _correct_curve_name sample_int "Conductance" = Ok ("Conductance", None).
Proof.
  split.
  - apply (correct_curve_name_stable sample_int "UV_280" "UV" (Some 280)).
    reflexivity.
  - apply (correct_curve_name_stable sample_int "Cond" "Conductance" None).
    reflexivity.
Defined.

(** ** Wavelengths in decimal notation *)

Lemma pretty_N_char_digit (y : N) :
  (y < 10)%N -> is_digit (pretty_N_char y) = true.
Proof.
  intros Hy.
  assert (y = 0 \/ y = 1 \/ y = 2 \/ y = 3 \/ y = 4 \/ y = 5 \/ y = 6
          \/ y = 7 \/ y = 8 \/ y = 9)%N as H by lia.
  repeat (destruct H as [->|H]; [reflexivity|]). subst. reflexivity.
Qed.

Lemma pretty_N_go_all_digits (x : N) (s : string) :
  all_digits (pretty_N_go x s) = all_digits s.
Proof.
  revert s. induction (N.lt_wf_0 x) as [x _ IH]; intros s.
  destruct (decide (x = 0)%N) as [->|Hx]; [now rewrite pretty_N_go_0|].
  rewrite pretty_N_go_step by lia.
  rewrite IH by (apply N.div_lt; lia). cbn [all_digits].
  rewrite pretty_N_char_digit; [reflexivity | apply N.mod_lt; lia].
Qed.

Lemma count_char_digits (s : string) :
  all_digits s = true -> count_char "_" s = 0%nat.
Proof.
  induction s as [|c s IH]; [reflexivity|]. cbn [all_digits count_char].
  intros H. apply andb_true_iff in H as [Hc Hs]. rewrite (IH Hs).
  destruct (Ascii.eqb_spec "_" c) as [<-|]; [discriminate Hc | reflexivity].
Qed.

(** The decimal notation of an integer has no underscore. *)
Lemma count_char_pretty (w : Z) : count_char "_" (pretty w) = 0%nat.
Proof.
  assert (Hpos : forall p : positive, count_char "_" (pretty p) = 0%nat).
  { intros p. apply count_char_digits.
    unfold pretty, pretty_positive, pretty, pretty_N.
    destruct (decide _) as [|_]; [discriminate|].
    now rewrite pretty_N_go_all_digits. }
  destruct w as [|p|p]; [reflexivity | apply Hpos |].
  change (pretty (Z.neg p)) with (String "-" (pretty p)).
  cbn [count_char]. change (Ascii.eqb "_" "-") with false. apply Hpos.
Qed.

Lemma split_char_at_separator (p t : string) :
  count_char "_" p = 0%nat -> count_char "_" t = 0%nat ->
  split_char "_" (p +:+ String "_" t) = [p; t].
Proof.
  intros Hp Ht. induction p as [|c p IH].
  - change ("" +:+ String "_" t) with (String "_" t). cbn [split_char].
    change (Ascii.eqb "_" "_") with true. cbv iota.
    now rewrite (split_char_none _ _ Ht).
  - change (String c p +:+ String "_" t) with (String c (p +:+ String "_" t)).
    cbn [count_char] in Hp. cbn [split_char].
    destruct (Ascii.eqb "_" c); [discriminate Hp|].
    now rewrite (IH Hp).
Qed.

Lemma startswith_app (s t p : string) :
  startswith s p = true -> startswith (s +:+ t) p = true.
Proof.
  revert s. induction p as [|a p IH]; intros s.
  - intros _. apply startswith_empty.
  - destruct s as [|b s]; [discriminate|].
    change (String b s +:+ t) with (String b (s +:+ t)). cbn [startswith].
    intros H. apply andb_true_iff in H as [-> H]. now rewrite (IH _ H).
Qed.

Lemma contains_char_app (c : ascii) (s t : string) :
  contains_char c (s +:+ String c t) = true.
Proof.
  induction s as [|b s IH].
  - change ("" +:+ String c t) with (String c t). cbn [contains_char].
    now rewrite Ascii.eqb_refl.
  - change (String b s +:+ String c t) with (String b (s +:+ String c t)).
    cbn [contains_char]. rewrite IH. apply orb_true_r.
Qed.

(** X8.  Wavelengths survive the normalisation as far as [int] reads them
    back: for a display name [p] that starts with UV and has no underscore
    and an integer [w], zero and negative ones included, the raw name made
    of [p], one underscore and the decimal notation of [w] is split into
    [p] and that notation, on which the outcome of [int] decides: when
    [int] reads the notation back as [w], the name normalises to [(p, w)];
    when [int] refuses it, its exception is raised. *)
Theorem correct_curve_name_wavelength (py_int : string -> result Z)
    (p : string) (w : Z) :
  startswith p "UV" = true ->
  count_char "_" p = 0%nat ->
  _correct_curve_name py_int (p +:+ "_" +:+ pretty w)
  = (v ← py_int (pretty w); Ok (p, Some v))
  /\ (py_int (pretty w) = Ok w ->
      _correct_curve_name py_int (p +:+ "_" +:+ pretty w) = Ok (p, Some w)).
Proof.
  intros Huv Hp.
  assert (Hsplit : _correct_curve_name py_int (p +:+ "_" +:+ pretty w)
                   = (v ← py_int (pretty w); Ok (p, Some v))).
  { unfold _correct_curve_name.
    change (p +:+ "_" +:+ pretty w) with (p +:+ String "_" (pretty w)).
    rewrite (startswith_app _ _ _ Huv), contains_char_app. cbn [andb].
    rewrite (split_char_at_separator _ _ Hp (count_char_pretty w)).
    reflexivity. }
  split; [exact Hsplit|]. intros Hint. now rewrite Hsplit, Hint.
Qed.

Lemma correct_curve_name_wavelength_witness :
  _correct_curve_name sample_int ("UV 2" +:+ "_" +:+ pretty (-254))
  = Ok ("UV 2", Some (-254)).
Proof.
  apply (correct_curve_name_wavelength sample_int "UV 2" (-254)); reflexivity.
Defined.

(** ** Loops that fill a mapping *)

Lemma foldl_store_other {K V} `{Countable K} (items : list (K * V))
    (m : gmap K V) (k : K) :
  (forall v, (k, v) ∉ items) -> foldl store m items !! k = m !! k.
Proof.
  revert m. induction items as [|[k' v'] items IH]; intros m Hno; [reflexivity|].
  cbn [foldl]. rewrite IH.
  - unfold store. cbn. apply lookup_insert_ne. intros ->.
    apply (Hno v'). left.
  - intros v Hin. apply (Hno v). now right.
Qed.

(** The item stored last under a key is the one found. *)
Lemma foldl_store_last {K V} `{Countable K} (before after : list (K * V))
    (m : gmap K V) (k : K) (v : V) :
  (forall v', (k, v') ∉ after) ->
  foldl store m (before ++ (k, v) :: after) !! k = Some v.
Proof.
  intros Hno. rewrite foldl_app. cbn [foldl].
  rewrite (foldl_store_other after _ k Hno).
  unfold store. cbn. apply lookup_insert_eq.
Qed.

Lemma foldl_store_lookup {K V} `{Countable K} (items : list (K * V))
    (m : gmap K V) (k : K) (v : V) :
  foldl store m items !! k = Some v -> (k, v) ∈ items \/ m !! k = Some v.
Proof.
  revert m. induction items as [|[k' v'] items IH]; intros m; [now right|].
  cbn [foldl]. intros Hl. apply IH in Hl as [Hin|Hm]; [left; now right|].
  unfold store in Hm. cbn in Hm.
  destruct (decide (k' = k)) as [->|Hne].
  - rewrite lookup_insert_eq in Hm. injection Hm as ->. left. left.
  - rewrite lookup_insert_ne in Hm by exact Hne. now right.
Qed.

Lemma foldl_store_size {K V} `{Countable K} (items : list (K * V)) (m : gmap K V) :
  (size (foldl store m items) <= size m + length items)%nat.
Proof.
  revert m. induction items as [|[k v] items IH]; intros m; cbn [foldl length]; [lia|].
  etransitivity; [apply IH|]. unfold store. cbn.
  destruct (m !! k) as [v0|] eqn:Hk.
  - assert (size (<[k:=v]> m) = size m) as ->; [|lia].
    rewrite <- (insert_delete_id m k v0 Hk) at 2.
    rewrite <- (insert_delete_eq m k v).
    rewrite !map_size_insert_None by apply lookup_delete_eq. reflexivity.
  - rewrite map_size_insert_None by exact Hk. lia.
Qed.

(** A loop in [result] whose body computes an item and stores it. *)
Lemma for_result_collect {A K V} `{Countable K} (f : A -> result (K * V))
    (xs : list A) (acc : gmap K V) :
  for_result (fun m x => kv ← f x; Ok (store m kv)) xs acc
  = items ← map_result f xs; Ok (foldl store acc items).
Proof.
  revert acc. induction xs as [|x xs IH]; intros acc; [reflexivity|].
  cbn [for_result map_result]. destruct (f x) as [kv|e]; [|reflexivity].
  cbn. rewrite IH. destruct (map_result f xs); reflexivity.
Qed.

(** The same loop in [io]: it succeeds exactly when every item is computed,
    and then its accesses are those of the items, in order. *)
Lemma for_io_collect {A K V} `{Countable K} (f : A -> io (K * V))
    (xs : list A) (acc acc' : gmap K V) :
  outcome (for_io (fun m x => kv ← f x; mret (store m kv)) xs acc) = Ok acc' <->
  exists items,
    Forall2 (fun x kv => outcome (f x) = Ok kv) xs items
    /\ acc' = foldl store acc items.
Proof.
  revert acc. induction xs as [|x xs IH]; intros acc; cbn [for_io].
  - split.
    + intros [= <-]. exists []. split; [constructor | reflexivity].
    + intros (items & Hall & ->). inversion Hall. reflexivity.
  - destruct (f x) as [t [kv|e]] eqn:Hf; cbn [mbind io_bind mret io_ret].
    + match goal with
      | |- context [for_io ?b xs ?a] =>
          specialize (IH a); destruct (for_io b xs a) as [t' r] eqn:Hrest
      end.
      cbn [outcome snd] in *. rewrite IH. split.
      * intros (items & Hall & ->). exists (kv :: items). split; [|reflexivity].
        constructor; [now rewrite Hf | exact Hall].
      * intros (items & Hall & ->). inversion Hall as [|? kv' ? items' Hkv Hall']; subst.
        rewrite Hf in Hkv. cbn in Hkv. injection Hkv as <-.
        exists items'. split; [exact Hall' | reflexivity].
    + cbn [outcome snd]. split; [discriminate|].
      intros (items & Hall & _). inversion Hall as [|? kv' ? items' Hkv Hall']; subst.
      rewrite Hf in Hkv. discriminate Hkv.
Qed.

Lemma for_io_collect_trace {A K V} `{Countable K} (f : A -> io (K * V))
    (xs : list A) (acc acc' : gmap K V) :
  outcome (for_io (fun m x => kv ← f x; mret (store m kv)) xs acc) = Ok acc' ->
  trace (for_io (fun m x => kv ← f x; mret (store m kv)) xs acc)
  = concat (map (fun x => trace (f x)) xs).
Proof.
  revert acc. induction xs as [|x xs IH]; intros acc; cbn [for_io]; [reflexivity|].
  destruct (f x) as [t [kv|e]] eqn:Hf; cbn [mbind io_bind mret io_ret];
    [|discriminate].
  match goal with
  | |- context [for_io ?b xs ?a] =>
      specialize (IH a); destruct (for_io b xs a) as [t' r] eqn:Hrest
  end.
  cbn [outcome trace fst snd map concat] in *. intros Hr.
  rewrite Hf. cbn [fst]. rewrite (IH Hr), app_nil_r. reflexivity.
Qed.

Lemma for_result_ext {A S} (body body' : S -> A -> result S) (xs : list A) (acc : S) :
  (forall s x, body s x = body' s x) ->
  for_result body xs acc = for_result body' xs acc.
Proof.
  intros Hext. revert acc. induction xs as [|x xs IH]; intros acc; [reflexivity|].
  cbn [for_result]. rewrite Hext. destruct (body' acc x); [apply IH | reflexivity].
Qed.

Lemma for_io_ext {A S} (body body' : S -> A -> io S) (xs : list A) (acc : S) :
  (forall s x, body s x = body' s x) ->
  for_io body xs acc = for_io body' xs acc.
Proof.
  intros Hext. revert acc. induction xs as [|x xs IH]; intros acc; [reflexivity|].
  cbn [for_io]. rewrite Hext. destruct (body' acc x) as [t [s|e]]; [|reflexivity].
  cbn [mbind io_bind]. now rewrite IH.
Qed.

Lemma foldl_store_kept {K V} `{Countable K} (items : list (K * V))
    (m : gmap K V) (k : K) :
  is_Some (m !! k) -> is_Some (foldl store m items !! k).
Proof.
  revert m. induction items as [|[k' v'] items IH]; intros m Hm; [exact Hm|].
  cbn [foldl]. apply IH. unfold store. cbn.
  destruct (decide (k' = k)) as [->|Hne].
  - rewrite lookup_insert_eq. eauto.
  - now rewrite lookup_insert_ne.
Qed.

Lemma foldl_store_elem {K V} `{Countable K} (items : list (K * V))
    (m : gmap K V) (k : K) (v : V) :
  (k, v) ∈ items -> is_Some (foldl store m items !! k).
Proof.
  revert m. induction items as [|kv items IH]; intros m Hin.
  - now apply elem_of_nil in Hin.
  - apply elem_of_cons in Hin as [<-|Hin]; [|now apply IH].
    cbn [foldl]. apply foldl_store_kept. unfold store. cbn.
    rewrite lookup_insert_eq. eauto.
Qed.

Lemma concat_singletons {A B} (g : A -> B) (t : A -> list B) (xs : list A) :
  (forall x, x ∈ xs -> t x = [g x]) -> concat (map t xs) = map g xs.
Proof.
  induction xs as [|x xs IH]; intros Hall; [reflexivity|].
  cbn [map concat]. rewrite (Hall x) by left. cbn.
  f_equal. apply IH. intros y Hy. apply Hall. now right.
Qed.

Lemma for_result_Ok_each {A S} (body : S -> A -> result S) (xs : list A)
    (acc acc' : S) :
  for_result body xs acc = Ok acc' ->
  forall x, x ∈ xs -> exists s s', body s x = Ok s'.
Proof.
  revert acc. induction xs as [|y xs IH]; intros acc Hr x Hin.
  - now apply elem_of_nil in Hin.
  - cbn [for_result] in Hr. destruct (body acc y) as [s|] eqn:Hb; [|discriminate].
    cbn in Hr. apply elem_of_cons in Hin as [->|Hin]; [eauto | eauto].
Qed.

(** The last marker of a well-formed container followed by marker-free
    bytes is the one of the container. *)
Lemma rfind_container_padding (c padding : bytes) :
  well_formed_container c -> marker_free padding ->
  rfind eocd_marker (c ++ padding) = Some (length c - 22)%nat.
Proof.
  intros (Hlen & Hocc & Hzero & Hlast) Hfree. unfold eocd_len in *.
  apply rfind_marker_iff. split.
  - apply occurs_at_app_l; [simpl; lia | exact Hocc].
  - intros j Ho.
    destruct (Nat.le_gt_cases (j + length eocd_marker) (length c)) as [Hin|Hout].
    + apply occurs_at_app_l in Ho; [|exact Hin]. now apply Hlast.
    + destruct (Nat.le_gt_cases (length c) j) as [Hr|Hl].
      * apply occurs_at_app_r in Ho; [|exact Hr]. destruct (Hfree _ Ho).
      * destruct (no_marker_across_seam c padding j Hzero (conj Hl Hout) Ho).
Qed.

(** ** Consuming a generator *)

Lemma advance_yielded {A} (k : nat) (g : generator A) :
  (k <= length (yielded g))%nat ->
  advance k g = mkGenerator (drop k (yielded g)) (raised g).
Proof.
  revert g. induction k as [|k IH]; intros [ys r]; cbn [yielded raised].
  - reflexivity.
  - destruct ys as [|y ys]; cbn [length]; [lia|]. intros Hk.
    cbn [advance]. unfold next. cbn [yielded raised snd].
    rewrite IH by (cbn; lia). reflexivity.
Qed.

(** Once its items are consumed, a generator that ends with an exception
    raises it at the next call and is exhausted after that. *)
Lemma next_after_yielded {A} (g : generator A) (e : exn) :
  raised g = Some e ->
  (next (advance (length (yielded g)) g)).1 = Raise e
  /\ (next (advance (S (length (yielded g))) g)).1 = StopIteration.
Proof.
  intros Hr.
  assert (Hend : advance (length (yielded g)) g = mkGenerator [] (Some e)).
  { rewrite advance_yielded by lia. now rewrite drop_all, Hr. }
  split.
  - now rewrite Hend.
  - replace (S (length (yielded g))) with (length (yielded g) + 1)%nat by lia.
    assert (Hadd : forall n m (h : generator A),
              advance (n + m) h = advance m (advance n h)).
    { induction n as [|n IHn]; intros m h; [reflexivity|]. cbn [plus advance].
      apply IHn. }
    rewrite Hadd, Hend. reflexivity.
Qed.
Section ExportProperties.

Variable float : Type.
Variable py_float : string -> result float.
Variable py_int : string -> result Z.
Variable ZipFile : zip_source -> result archive.
Variable et_parse : bytes -> result element.
Variable call_object :
  pyobject -> list (list (pyval float)) -> result (list (list (pyval float))).

(** C2.  With a data order whose first axis is not volume, on a document
    with at least one EventCurve, event extraction does not return: once
    the events of the first EventCurve are assembled, the call of the
    unbound name [reverse] raises NameError (and when those events are
    malformed, their own exception is raised before). *)
Theorem get_events_swapped_order_raises
    (first : string) (rest : list string) (root ec : element)
    (ecs : list element) :
  first <> "volume" ->
  iter "EventCurve" root = ec :: ecs ->
  _get_events py_float call_object (first :: rest) root
  = (nice ← event_columns py_float ec; Error (NameError "reverse")).
Proof.
  intros Hfirst Hiter. unfold _get_events. rewrite Hiter.
  cbn [for_result]. destruct (event_columns py_float ec) as [nice|e]; [|reflexivity].
  cbn [mbind result_bind first_not_volume].
  apply String.eqb_neq in Hfirst. rewrite Hfirst. cbn [negb].
  rewrite load_global_reverse. reflexivity.
Qed.

(** A data order whose first axis is not volume makes the whole export fail
    as soon as the document has an EventCurve. *)
Lemma init_swapped_order_fails
    (f_name : string) (first : string) (rest : list string) (ignore : bool) :
  first <> "volume" ->
  (forall ar mtd root,
      ZipFile (Path f_name) = Ok ar -> zip_read ar (Some "Chrom.1.Xml") = Ok mtd ->
      et_parse mtd = Ok root -> iter "EventCurve" root <> []) ->
  is_ok (outcome (__init__ py_float py_int ZipFile et_parse call_object
                    f_name (first :: rest) ignore)) = false.
Proof.
  intros Hfirst Hdoc. unfold __init__.
  destruct (_ && _); [|reflexivity].
  unfold _load_data, io_step, pure_step. cbn [mbind io_bind].
  destruct (ZipFile (Path f_name)) as [ar|] eqn:Har; [|reflexivity].
  destruct (zip_read ar (Some "Chrom.1.Xml")) as [mtd|] eqn:Hm; [|reflexivity].
  destruct (et_parse mtd) as [root|] eqn:Hp; [|reflexivity].
  specialize (Hdoc ar mtd root eq_refl Hm Hp).
  destruct (iter "EventCurve" root) as [|ec ecs] eqn:Hit; [congruence|].
  cbn [class_defaults _do]. unfold _get_events. rewrite Hit.
  cbn [for_result]. destruct (event_columns py_float ec); [|reflexivity].
  cbn [mbind result_bind first_not_volume].
  apply String.eqb_neq in Hfirst. rewrite Hfirst. reflexivity.
Qed.

(** ** Missing event types *)

Lemma assign_events_no_fraction
    (self : UNICORNZipExport float) (events : gmap (option string) (list (list (pyval float)))) :
  events !! Some "Fraction" = None ->
  assign_events self events = (self, Error (KeyError (DictKey "Fraction"))).
Proof. intros H. unfold assign_events. now rewrite H. Qed.

Lemma assign_events_no_injection
    (self : UNICORNZipExport float) (events : gmap (option string) (list (list (pyval float)))) fr :
  events !! Some "Fraction" = Some fr ->
  events !! Some "Injection" = None ->
  assign_events self events
  = (set_fractions fr self, Error (KeyError (DictKey "Injection"))).
Proof. intros H1 H2. unfold assign_events. now rewrite H1, H2. Qed.

(** Only when Logbook is the absent type are the other two lists assigned. *)
Lemma assign_events_no_logbook
    (self : UNICORNZipExport float) (events : gmap (option string) (list (list (pyval float)))) fr inj :
  events !! Some "Fraction" = Some fr ->
  events !! Some "Injection" = Some inj ->
  events !! Some "Logbook" = None ->
  assign_events self events
  = (set_injections inj (set_fractions fr self),
     Error (KeyError (DictKey "Logbook"))).
Proof. intros H1 H2 H3. unfold assign_events. now rewrite H1, H2, H3. Qed.

(** C3.  A document with Injection and Logbook events and no Fraction
    events, read volume first.  Event extraction finds the two lists, but
    under the permissive policy the export ends with all three event lists
    empty: the KeyError on Fraction leaves the [try] before the other two
    are assigned.  Under the strict policy the export fails with the
    ValueError naming Fraction. *)
Theorem load_data_drops_present_events
    (f_name : string) (ar : archive) (xml : bytes) (v0 v1 v20 : float) :
  ZipFile (Path f_name) = Ok ar ->
  ar !! "Chrom.1.Xml" = Some xml ->
  et_parse xml = Ok doc_no_fraction ->
  py_float "0" = Ok v0 -> py_float "1" = Ok v1 -> py_float "20" = Ok v20 ->
  _get_events py_float call_object ["volume"; "amplitude"] doc_no_fraction
  = Ok (<[Some "Logbook" := [[PyFloat v0; PyFloat v20]; [PyStr "Start"; PyStr "End"]]]>
        (<[Some "Injection" := [[PyFloat v1]; [PyStr "Sample"]]]> ∅))
  /\ outcome (__init__ py_float py_int ZipFile et_parse call_object
                f_name ["volume"; "amplitude"] true)
     = Ok (mkExport ["volume"; "amplitude"] [] [] [] ∅)
  /\ outcome (__init__ py_float py_int ZipFile et_parse call_object
                f_name ["volume"; "amplitude"] false)
     = Error (ValueError (MissingEvents f_name "Fraction")).
Proof.
  intros Har Hxml Hparse H0 H1 H20.
  assert (Hev : _get_events py_float call_object ["volume"; "amplitude"] doc_no_fraction
    = Ok (<[Some "Logbook" := [[PyFloat v0; PyFloat v20]; [PyStr "Start"; PyStr "End"]]]>
          (<[Some "Injection" := [[PyFloat v1]; [PyStr "Sample"]]]> ∅))).
  { unfold _get_events, event_columns, event_pair, doc_no_fraction.
    cbn -[insert]. rewrite H1. cbn -[insert]. rewrite H0. cbn -[insert].
    rewrite H20. reflexivity. }
  split; [exact Hev|].
  assert (Hload : forall ignore,
    __init__ py_float py_int ZipFile et_parse call_object f_name ["volume"; "amplitude"] ignore
    = ([OpenArchive f_name; OpenEntry "Chrom.1.Xml"],
       if ignore then Ok (mkExport ["volume"; "amplitude"] [] [] [] ∅)
       else Error (ValueError (MissingEvents f_name "Fraction")))).
  { intros ignore. unfold __init__.
    replace (bool_decide _ && bool_decide _) with true by reflexivity.
    unfold _load_data, io_step, pure_step, zip_read. rewrite Har.
    cbn [mbind io_bind option_bind]. rewrite Hxml, Hparse.
    cbn [mbind io_bind class_defaults _do]. rewrite Hev.
    rewrite assign_events_no_fraction by reflexivity.
    destruct ignore; reflexivity. }
  split; rewrite Hload; reflexivity.
Qed.

(** ** Validation of the data order *)

Lemma load_data_opens_first
    (self : UNICORNZipExport float) (f_name : string) (ignore : bool) :
  exists rest,
    trace (_load_data py_float py_int ZipFile et_parse call_object self f_name ignore)
    = OpenArchive f_name :: rest.
Proof.
  unfold _load_data. rewrite trace_io_step. eexists. reflexivity.
Qed.

(** C5 (amended).  Construction fails with the ValueError 'invalid data
    order', without any access to the export, exactly when the data order
    lacks volume or lacks amplitude.  Every data order that contains both,
    the two exact orders among them, passes the check: the constructor
    goes on to load the data, beginning with opening the export. *)
Theorem init_validates_membership
    (file_name : string) (data_order : list string) (ignore : bool) :
  let run := __init__ py_float py_int ZipFile et_parse call_object
               file_name data_order ignore in
  (~ ("volume" ∈ data_order /\ "amplitude" ∈ data_order) ->
     run = ([], Error (ValueError InvalidDataOrder)))
  /\ ("volume" ∈ data_order /\ "amplitude" ∈ data_order ->
      run = _load_data py_float py_int ZipFile et_parse call_object
              (class_defaults data_order) file_name ignore
      /\ exists rest, trace run = OpenArchive file_name :: rest)
  /\ (exact_axis_order data_order ->
      "volume" ∈ data_order /\ "amplitude" ∈ data_order).
Proof.
  cbv zeta. unfold __init__. split; [|split].
  - intros Hno. rewrite <- bool_decide_and, bool_decide_eq_false_2 by exact Hno.
    reflexivity.
  - intros Hyes. rewrite <- bool_decide_and, bool_decide_eq_true_2 by exact Hyes.
    split; [reflexivity | apply load_data_opens_first].
  - intros [-> | ->]; split; set_solver.
Qed.

(** ** The metadata entry *)

(** C9.  When the export has no entry Chrom.1.Xml, construction fails under
    both policies; with a data order that passes validation the failure is
    the KeyError of the missing entry, raised right after the archive was
    opened. *)
Theorem missing_metadata_always_fails
    (f_name : string) (data_order : list string) (ignore : bool) (ar : archive) :
  ZipFile (Path f_name) = Ok ar ->
  ar !! "Chrom.1.Xml" = None ->
  let run := __init__ py_float py_int ZipFile et_parse call_object
               f_name data_order ignore in
  is_ok (outcome run) = false
  /\ ("volume" ∈ data_order -> "amplitude" ∈ data_order ->
      run = ([OpenArchive f_name; OpenEntry "Chrom.1.Xml"],
             Error (KeyError (NoItemNamed (Some "Chrom.1.Xml"))))).
Proof.
  intros Har Hnone. cbv zeta.
  assert (Hload : forall self,
    _load_data py_float py_int ZipFile et_parse call_object self f_name ignore
    = ([OpenArchive f_name; OpenEntry "Chrom.1.Xml"],
       Error (KeyError (NoItemNamed (Some "Chrom.1.Xml"))))).
  { intros self. unfold _load_data, io_step, zip_read. rewrite Har.
    cbn [mbind io_bind option_bind]. rewrite Hnone. reflexivity. }
  unfold __init__. split.
  - destruct (_ && _); [rewrite Hload|]; reflexivity.
  - intros Hv Ha. rewrite !bool_decide_eq_true_2 by assumption. apply Hload.
Qed.

(** ** Event lists *)

(** C7 (amended).  For an EventCurve whose events are well formed, event
    [i] in document order having the volume [v_i] and the text [t_i]: with
    at least one event the assembled list is exactly the two parallel
    sequences of the volumes and of the texts, each with one item per event,
    in document order; with no event it is the empty tuple. *)
Theorem event_columns_parallel
    (ec : element) (pairs : list (float * option string)) :
  Forall2 (fun e p => event_pair py_float e = Ok [PyFloat p.1; of_text p.2])
          (iter "Event" ec) pairs ->
  event_columns py_float ec
  = Ok (match pairs with
        | [] => []
        | _ => [PyFloat <$> pairs.*1; of_text <$> pairs.*2]
        end)
  /\ length pairs.*1 = length (iter "Event" ec)
  /\ length pairs.*2 = length (iter "Event" ec).
Proof.
  intros Hev. split.
  - unfold event_columns.
    rewrite (map_result_Forall2 _ _
               (map (fun p => [PyFloat p.1; of_text p.2]) pairs)).
    + cbn [mbind result_bind].
      rewrite (zip_star_pairs (fun p => PyFloat p.1) (fun p => of_text p.2)).
      destruct pairs; [reflexivity|].
      rewrite <- !list_fmap_compose. reflexivity.
    + apply Forall2_fmap_r. exact Hev.
  - rewrite !length_fmap. apply Forall2_length in Hev. now rewrite Hev.
Qed.

(** Under a volume-first order, what [_get_events] stores under a type is
    the assembled list of an EventCurve of that type. *)
Lemma get_events_lookup
    (rest : list string) (root : element)
    (m : gmap (option string) (list (list (pyval float))))
    (type : option string) (nice : list (list (pyval float))) :
  _get_events py_float call_object ("volume" :: rest) root = Ok m ->
  m !! type = Some nice ->
  exists ec, ec ∈ iter "EventCurve" root
             /\ get "EventCurveType" ec = type
             /\ event_columns py_float ec = Ok nice.
Proof.
  unfold _get_events. intros Hm. revert type nice.
  refine (for_result_invariant
            (fun m => forall type nice, m !! type = Some nice -> _) _ _ _ _ _ _ Hm).
  - intros type nice. rewrite lookup_empty. discriminate.
  - intros s ec s' Hin IH.
    destruct (event_columns py_float ec) as [cols|] eqn:Hc; [|discriminate].
    cbn. intros [= <-] type nice.
    destruct (decide (get "EventCurveType" ec = type)) as [<-|Hne].
    + rewrite lookup_insert_eq. intros [= <-]. now exists ec.
    + rewrite lookup_insert_ne by exact Hne. apply IH.
Qed.

(** ** Read-outs *)

(** The decoder reads, for each axis of the data order in turn, the entry of
    that axis from the trimmed nested archive. *)
Lemma decode_ro_buf_axes (self_do : list string) (buf : bytes) :
  _decode_ro_buf ZipFile self_do buf
  = stop ← _get_padding_start buf;
    inner ← ZipFile (BytesIO (take stop buf));
    map_result (axis_data inner) self_do.
Proof.
  unfold _decode_ro_buf.
  destruct (_get_padding_start buf) as [stop|]; [|reflexivity]. cbn.
  destruct (ZipFile (BytesIO (take stop buf))) as [inner|]; [|reflexivity]. cbn.
  rewrite map_result_map. reflexivity.
Qed.

(** C8 (amended).  When the nested archive of a curve holds a Volumes entry
    that decodes to [vols] and an Amplitudes entry that decodes to [amps],
    the decoder returns the two sequences as decoded, in the configured
    order, whatever their lengths: no comparison of the lengths is made, no
    failure is raised for unequal lengths and nothing is truncated. *)
Theorem decode_ro_buf_returns_both
    (buf : bytes) (stop : nat) (inner : archive)
    (vol_bytes amp_bytes : bytes) (vols amps : list f4) :
  _get_padding_start buf = Ok stop ->
  ZipFile (BytesIO (take stop buf)) = Ok inner ->
  inner !! "CoordinateData.Volumes" = Some vol_bytes ->
  inner !! "CoordinateData.Amplitudes" = Some amp_bytes ->
  _decode_binary_data vol_bytes = Ok vols ->
  _decode_binary_data amp_bytes = Ok amps ->
  _decode_ro_buf ZipFile ["volume"; "amplitude"] buf = Ok [vols; amps]
  /\ _decode_ro_buf ZipFile ["amplitude"; "volume"] buf = Ok [amps; vols].
Proof.
  intros Hstop Hzip Hv Ha Hdv Hda.
  assert (Hvol : axis_data inner "volume" = Ok vols).
  { unfold axis_data, zip_read.
    change ("CoordinateData." +:+ capitalize "volume" +:+ "s")
      with "CoordinateData.Volumes".
    cbn [mbind option_bind]. rewrite Hv. exact Hdv. }
  assert (Hamp : axis_data inner "amplitude" = Ok amps).
  { unfold axis_data, zip_read.
    change ("CoordinateData." +:+ capitalize "amplitude" +:+ "s")
      with "CoordinateData.Amplitudes".
    cbn [mbind option_bind]. rewrite Ha. exact Hda. }
  rewrite !decode_ro_buf_axes, Hstop. cbn [mbind result_bind]. rewrite Hzip.
  cbn [mbind result_bind map_result]. rewrite Hvol, Hamp. split; reflexivity.
Qed.

(** C10.  In every read-out that [_get_ro] stores, the units and the
    measurements follow the same data order: there are a curve of the
    document and the nested archive trimmed out of its binary entry such
    that, at every position [i], with [d] the axis at position [i] of the
    data order, the measurement sequence at position [i] is the decoded
    data of axis [d] of that archive, and the unit that the units generator
    yields at position [i], when it yields one, is the unit text of axis [d]
    of that curve.  The measurements have one sequence per axis; the
    generator yields one unit per axis and ends by exhaustion when the curve
    has the unit element of every axis of the data order, and otherwise
    raises at the first axis whose unit element is missing, after the units
    of the axes before it. *)
Theorem readout_units_follow_measurements
    (self_do : list string) (ar : archive) (root : element)
    (ros : gmap string _ReadOut) (name : string) (ro : _ReadOut) :
  outcome (_get_ro py_int ZipFile self_do ar root) = Ok ros ->
  ros !! name = Some ro ->
  exists (curve : element) (inner : archive),
    curve ∈ iter "Curve" root
    /\ (exists f_name buf stop,
          unpack1 (iter "BinaryCurvePointsFileName" curve) = Ok f_name
          /\ zip_read ar (text f_name) = Ok buf
          /\ _get_padding_start buf = Ok stop
          /\ ZipFile (BytesIO (take stop buf)) = Ok inner)
    /\ length (measurements ro) = length self_do
    /\ (forall (i : nat) (d : string),
          self_do !! i = Some d ->
          exists floats,
            measurements ro !! i = Some floats
            /\ axis_data inner d = Ok floats)
    /\ (forall (i : nat) (u : option string),
          yielded (units ro) !! i = Some u ->
          exists d, self_do !! i = Some d /\ axis_unit curve d = Ok u)
    /\ ((forall d, d ∈ self_do -> is_ok (axis_unit curve d) = true) ->
        length (yielded (units ro)) = length self_do
        /\ raised (units ro) = None)
    /\ (forall e, raised (units ro) = Some e ->
          exists d, self_do !! length (yielded (units ro)) = Some d
                    /\ axis_unit curve d = Error e).
Proof.
  unfold _get_ro. intros Hros. revert name ro.
  refine (for_io_invariant
            (fun ros => forall name ro, ros !! name = Some ro -> _) _ _ _ _ _ _ Hros).
  - intros name ro. rewrite lookup_empty. discriminate.
  - intros s curve s' Hin IH. unfold pure_step, io_step. cbn [mbind io_bind].
    destruct (unpack1 _) as [f_name|] eqn:Hname; [|discriminate]. cbn [app].
    destruct (zip_read ar (text f_name)) as [buf|] eqn:Hbuf; [|discriminate].
    destruct (_decode_ro_buf ZipFile self_do buf) as [ms|] eqn:Hms; [|discriminate].
    destruct (text_of (find "Name" curve)) as [cn_text|]; [|discriminate].
    destruct (correct_name_of_text py_int cn_text) as [[nm wl]|]; [|discriminate].
    cbn. intros [= <-] name ro.
    destruct (decide (nm = name)) as [<-|Hne];
      [|rewrite lookup_insert_ne by exact Hne; apply IH].
    rewrite lookup_insert_eq. intros [= <-]. cbn [units measurements].
    rewrite decode_ro_buf_axes in Hms.
    destruct (_get_padding_start buf) as [stop|] eqn:Hstop; [|discriminate].
    cbn in Hms.
    destruct (ZipFile (BytesIO (take stop buf))) as [inner|] eqn:Hzip;
      [|discriminate].
    cbn in Hms. apply map_result_Ok_Forall2 in Hms.
    rewrite get_ro_units_axes.
    exists curve, inner. split; [exact Hin|].
    split; [now exists f_name, buf, stop|].
    split; [symmetry; exact (Forall2_length _ _ _ Hms)|].
    split; [|split; [|split]].
    + intros i d Hd.
      destruct (Forall2_lookup_l _ _ _ _ _ Hms Hd) as (floats & Hf & Hdata).
      now exists floats.
    + intros i u Hu. exact (generate_yielded _ _ _ _ Hu).
    + apply generate_complete.
    + intros e He. exact (generate_raised _ _ _ He).
Qed.

(** * Further properties of the export reader *)

(** ** The loop over the curves *)

Lemma get_ro_as_loop (self_do : list string) (ar : archive) (root : element) :
  _get_ro py_int ZipFile self_do ar root
  = for_io (fun m c => kv ← read_curve py_int ZipFile self_do ar c; mret (store m kv))
           (iter "Curve" root) ∅.
Proof.
  unfold _get_ro. apply for_io_ext. intros ros c. unfold read_curve, pure_step, io_step.
  destruct (unpack1 _) as [f_name|]; [|reflexivity]. cbn [mbind io_bind app].
  destruct (zip_read ar (text f_name)) as [buf|]; [|reflexivity].
  destruct (_decode_ro_buf ZipFile self_do buf) as [ms|]; [|reflexivity].
  destruct (text_of (find "Name" c)) as [cn_text|]; [|reflexivity].
  destruct (correct_name_of_text py_int cn_text) as [[name wl]|]; reflexivity.
Qed.

Lemma get_ro_items (self_do : list string) (ar : archive) (root : element)
    (ros : gmap string _ReadOut) :
  outcome (_get_ro py_int ZipFile self_do ar root) = Ok ros <->
  exists items,
    Forall2 (fun c kv => outcome (read_curve py_int ZipFile self_do ar c) = Ok kv)
            (iter "Curve" root) items
    /\ ros = foldl store ∅ items.
Proof. rewrite get_ro_as_loop. apply for_io_collect. Qed.

Lemma read_curve_trace (self_do : list string) (ar : archive) (c : element)
    (kv : string * _ReadOut) :
  outcome (read_curve py_int ZipFile self_do ar c) = Ok kv ->
  trace (read_curve py_int ZipFile self_do ar c) = [ReadEntry (blob_name c)].
Proof.
  unfold read_curve, blob_name, unpack1, pure_step, io_step.
  destruct (iter "BinaryCurvePointsFileName" c) as [|f_name [|f2 r]];
    [discriminate| |discriminate].
  cbn [mbind io_bind app].
  destruct (zip_read ar (text f_name)) as [buf|]; [|discriminate].
  destruct (_decode_ro_buf ZipFile self_do buf) as [ms|]; [|discriminate].
  destruct (text_of (find "Name" c)) as [cn_text|]; [|discriminate].
  destruct (correct_name_of_text py_int cn_text) as [[name wl]|]; [|discriminate].
  reflexivity.
Qed.

(** X9.  Curves that normalise to the same display name overwrite each other
    in document order: when [_get_ro] succeeds, the read-out found under a
    display name is that of the last curve of the document with that
    display name. *)
Theorem get_ro_last_write_wins
    (self_do : list string) (ar : archive) (root : element)
    (ros : gmap string _ReadOut)
    (before after : list element) (c : element) (name : string) (ro : _ReadOut) :
  outcome (_get_ro py_int ZipFile self_do ar root) = Ok ros ->
  iter "Curve" root = before ++ c :: after ->
  outcome (read_curve py_int ZipFile self_do ar c) = Ok (name, ro) ->
  (forall c' ro', c' ∈ after ->
     outcome (read_curve py_int ZipFile self_do ar c') <> Ok (name, ro')) ->
  ros !! name = Some ro.
Proof.
  intros Hros Hiter Hc Hlater.
  apply get_ro_items in Hros as (items & Hall & ->). rewrite Hiter in Hall.
  apply Forall2_app_inv_l in Hall as (ib & rest & _ & Hrest & ->).
  inversion Hrest as [|? kv ? ia Hkv Hafter]; subst.
  rewrite Hc in Hkv. injection Hkv as <-.
  apply foldl_store_last. intros v' Hin.
  apply list_elem_of_lookup in Hin as [i Hi].
  destruct (Forall2_lookup_r _ _ _ _ _ Hafter Hi) as (c' & Hc' & Hread).
  apply (Hlater c' v'); [|exact Hread].
  apply list_elem_of_lookup. eauto.
Qed.

(** X10.  [_get_ro] is all or nothing, and its keys are the display names of
    the curves: when it succeeds, every curve of the document was read and
    its display name is a key; every entry is the read-out of some curve of
    the document; there are at most as many entries as curves. *)
Theorem get_ro_keys
    (self_do : list string) (ar : archive) (root : element)
    (ros : gmap string _ReadOut) :
  outcome (_get_ro py_int ZipFile self_do ar root) = Ok ros ->
  (forall c, c ∈ iter "Curve" root ->
     exists name ro, outcome (read_curve py_int ZipFile self_do ar c) = Ok (name, ro)
                     /\ is_Some (ros !! name))
  /\ (forall name ro, ros !! name = Some ro ->
        exists c, c ∈ iter "Curve" root
                  /\ outcome (read_curve py_int ZipFile self_do ar c) = Ok (name, ro))
  /\ (size ros <= length (iter "Curve" root))%nat.
Proof.
  intros Hros. apply get_ro_items in Hros as (items & Hall & ->).
  split; [|split].
  - intros c Hin. apply list_elem_of_lookup in Hin as [i Hi].
    destruct (Forall2_lookup_l _ _ _ _ _ Hall Hi) as ([name ro] & Hkv & Hread).
    exists name, ro. split; [exact Hread|].
    apply (foldl_store_elem _ _ _ ro). apply list_elem_of_lookup. eauto.
  - intros name ro Hl. apply foldl_store_lookup in Hl as [Hin|Hempty].
    + apply list_elem_of_lookup in Hin as [i Hi].
      destruct (Forall2_lookup_r _ _ _ _ _ Hall Hi) as (c & Hc & Hread).
      exists c. split; [apply list_elem_of_lookup; eauto | exact Hread].
    + rewrite lookup_empty in Hempty. discriminate.
  - pose proof (foldl_store_size items (∅ : gmap string _ReadOut)) as Hs.
    rewrite map_size_empty in Hs. rewrite (Forall2_length _ _ _ Hall). exact Hs.
Qed.

Lemma get_ro_trace (self_do : list string) (ar : archive) (root : element)
    (ros : gmap string _ReadOut) :
  outcome (_get_ro py_int ZipFile self_do ar root) = Ok ros ->
  trace (_get_ro py_int ZipFile self_do ar root)
  = map (fun c => ReadEntry (blob_name c)) (iter "Curve" root).
Proof.
  intros Hros. pose proof Hros as Hitems.
  apply get_ro_items in Hitems as (items & Hall & _).
  rewrite get_ro_as_loop in Hros |- *.
  rewrite (for_io_collect_trace _ _ _ _ Hros).
  apply concat_singletons. intros c Hin.
  apply list_elem_of_lookup in Hin as [i Hi].
  destruct (Forall2_lookup_l _ _ _ _ _ Hall Hi) as (kv & _ & Hread).
  exact (read_curve_trace _ _ _ _ Hread).
Qed.

(** ** The loop over the event curves *)

Lemma get_events_as_loop (rest : list string) (root : element) :
  _get_events py_float call_object ("volume" :: rest) root
  = items ← map_result
              (fun ec => nice ← event_columns py_float ec;
                         Ok (get "EventCurveType" ec, nice))
              (iter "EventCurve" root);
    Ok (foldl store ∅ items).
Proof.
  unfold _get_events. rewrite <- for_result_collect.
  apply for_result_ext. intros m ec.
  destruct (event_columns py_float ec); reflexivity.
Qed.

(** X11.  Event curves of the same type overwrite each other in document
    order: under a volume-first data order, when event extraction succeeds,
    the list found under a type (or under no type, for curves without the
    attribute) is that of the last EventCurve of the document with that
    type. *)
Theorem get_events_last_write_wins
    (rest : list string) (root : element)
    (m : gmap (option string) (list (list (pyval float))))
    (before after : list element) (ec : element)
    (nice : list (list (pyval float))) :
  _get_events py_float call_object ("volume" :: rest) root = Ok m ->
  iter "EventCurve" root = before ++ ec :: after ->
  event_columns py_float ec = Ok nice ->
  (forall ec', ec' ∈ after ->
     get "EventCurveType" ec' <> get "EventCurveType" ec) ->
  m !! get "EventCurveType" ec = Some nice.
Proof.
  intros Hm Hiter Hec Hlater. rewrite get_events_as_loop, Hiter in Hm.
  destruct (map_result _ _) as [items|] eqn:Hitems; [|discriminate].
  cbn in Hm. injection Hm as <-.
  apply map_result_Ok_Forall2, Forall2_app_inv_l in Hitems
    as (ib & tail & _ & Htail & ->).
  inversion Htail as [|? kv ? ia Hkv Hafter]; subst.
  rewrite Hec in Hkv. cbn in Hkv. injection Hkv as <-.
  apply foldl_store_last. intros v' Hin.
  apply list_elem_of_lookup in Hin as [i Hi].
  destruct (Forall2_lookup_r _ _ _ _ _ Hafter Hi) as (ec' & Hec' & Hread).
  destruct (event_columns py_float ec'); [|discriminate].
  cbn in Hread. injection Hread as Htype _.
  apply (Hlater ec'); [apply list_elem_of_lookup; eauto | exact Htype].
Qed.

(** X12.  Event extraction is all or nothing: when it succeeds, whatever the
    data order, every Event of every EventCurve of the document has an
    EventVolume child whose text [float] accepts and an EventText child. *)
Theorem get_events_all_well_formed
    (self_do : list string) (root : element)
    (m : gmap (option string) (list (list (pyval float))))
    (ec e : element) :
  _get_events py_float call_object self_do root = Ok m ->
  ec ∈ iter "EventCurve" root ->
  e ∈ iter "Event" ec ->
  exists ve s v te,
    find "EventVolume" e = Some ve /\ text ve = Some s /\ py_float s = Ok v
    /\ find "EventText" e = Some te.
Proof.
  intros Hm Hec He. unfold _get_events in Hm.
  destruct (for_result_Ok_each _ _ _ _ Hm ec Hec) as (s0 & s' & Hbody).
  unfold event_columns in Hbody.
  destruct (map_result (event_pair py_float) (iter "Event" ec)) as [rows|] eqn:Hrows;
    [|discriminate].
  apply map_result_Ok_Forall2 in Hrows.
  apply list_elem_of_lookup in He as [i Hi].
  destruct (Forall2_lookup_l _ _ _ _ _ Hrows Hi) as (row & _ & Hpair).
  unfold event_pair, text_of, float_of_text in Hpair.
  destruct (find "EventVolume" e) as [ve|] eqn:Hve; [|discriminate].
  cbn [mbind result_bind] in Hpair.
  destruct (text ve) as [s|] eqn:Hs; [|discriminate].
  destruct (py_float s) as [v|] eqn:Hv; [|discriminate].
  cbn [mbind result_bind] in Hpair.
  destruct (find "EventText" e) as [te|] eqn:Hte; [|discriminate].
  exists ve, s, v, te. auto.
Qed.

(** ** The constructor as a whole *)

Lemma assign_events_do (self : UNICORNZipExport float)
    (events : gmap (option string) (list (list (pyval float)))) :
  _do (assign_events self events).1 = _do self
  /\ readout (assign_events self events).1 = readout self.
Proof.
  unfold assign_events.
  destruct (events !! Some "Fraction"); [|now split].
  destruct (events !! Some "Injection"); [|now split].
  destruct (events !! Some "Logbook"); now split.
Qed.

Lemma assign_events_first_missing (self : UNICORNZipExport float)
    (events : gmap (option string) (list (list (pyval float)))) :
  match first_missing events with
  | Some key => (assign_events self events).2 = Error (KeyError (DictKey key))
  | None =>
      exists fr inj lg,
        events !! Some "Fraction" = Some fr
        /\ events !! Some "Injection" = Some inj
        /\ events !! Some "Logbook" = Some lg
        /\ assign_events self events
           = (set_messages lg (set_injections inj (set_fractions fr self)), Ok ())
  end.
Proof.
  unfold first_missing, assign_events. cbn [List.find].
  destruct (events !! Some "Fraction") as [fr|] eqn:Hf;
    [rewrite bool_decide_eq_false_2 by discriminate
    | rewrite bool_decide_eq_true_2 by reflexivity; reflexivity].
  destruct (events !! Some "Injection") as [inj|] eqn:Hi;
    [rewrite bool_decide_eq_false_2 by discriminate
    | rewrite bool_decide_eq_true_2 by reflexivity; reflexivity].
  destruct (events !! Some "Logbook") as [lg|] eqn:Hl;
    [rewrite bool_decide_eq_false_2 by discriminate
    | rewrite bool_decide_eq_true_2 by reflexivity; reflexivity].
  now exists fr, inj, lg.
Qed.

(** What [_load_data] does once the document is parsed and its events are
    extracted. *)
Lemma load_data_run (self : UNICORNZipExport float) (f_name : string)
    (ignore : bool) (ar : archive) (mtd : bytes) (root : element)
    (events : gmap (option string) (list (list (pyval float)))) :
  ZipFile (Path f_name) = Ok ar ->
  zip_read ar (Some "Chrom.1.Xml") = Ok mtd ->
  et_parse mtd = Ok root ->
  _get_events py_float call_object (_do self) root = Ok events ->
  _load_data py_float py_int ZipFile et_parse call_object self f_name ignore
  = let self1 := (assign_events self events).1 in
    let opened := [OpenArchive f_name; OpenEntry "Chrom.1.Xml"] in
    let reads := _get_ro py_int ZipFile (_do self) ar root in
    match first_missing events with
    | Some key =>
        if ignore
        then (opened ++ trace reads,
              match outcome reads with
              | Ok ros => Ok (set_readout ros self1)
              | Error e => Error e
              end)
        else (opened, Error (ValueError (MissingEvents f_name key)))
    | None =>
        (opened ++ trace reads,
         match outcome reads with
         | Ok ros => Ok (set_readout ros self1)
         | Error e => Error e
         end)
    end.
Proof.
  intros Har Hmtd Hroot Hev. cbv zeta.
  unfold _load_data, io_step, pure_step. rewrite Har. cbn [mbind io_bind].
  rewrite Hmtd, Hroot. cbn [mbind io_bind]. rewrite Hev.
  pose proof (assign_events_first_missing self events) as Hfm.
  pose proof (assign_events_do self events) as [Hdo _].
  destruct (first_missing events) as [key|].
  - destruct (assign_events self events) as [self1 r]. cbn [fst snd] in *.
    subst r. destruct ignore; [|reflexivity].
    rewrite Hdo.
    destruct (_get_ro py_int ZipFile (_do self) ar root) as [t [ros|e]];
      cbn; rewrite ?app_nil_r; reflexivity.
  - destruct Hfm as (fr & inj & lg & _ & _ & _ & Has). rewrite Has in *.
    cbn [fst] in *. rewrite Hdo.
    destruct (_get_ro py_int ZipFile (_do self) ar root) as [t [ros|e]];
      cbn; rewrite ?app_nil_r; reflexivity.
Qed.

(** A successful construction went through every step. *)
Lemma init_Ok_steps (f_name : string) (data_order : list string)
    (ignore : bool) (self : UNICORNZipExport float) :
  outcome (__init__ py_float py_int ZipFile et_parse call_object
             f_name data_order ignore) = Ok self ->
  "volume" ∈ data_order /\ "amplitude" ∈ data_order
  /\ exists ar mtd root events,
       ZipFile (Path f_name) = Ok ar
       /\ zip_read ar (Some "Chrom.1.Xml") = Ok mtd
       /\ et_parse mtd = Ok root
       /\ _get_events py_float call_object data_order root = Ok events.
Proof.
  unfold __init__.
  destruct (bool_decide ("volume" ∈ data_order)) eqn:Hv; [|discriminate].
  destruct (bool_decide ("amplitude" ∈ data_order)) eqn:Ha; [|discriminate].
  apply bool_decide_eq_true_1 in Hv. apply bool_decide_eq_true_1 in Ha.
  cbn [andb]. unfold _load_data, io_step, pure_step.
  destruct (ZipFile (Path f_name)) as [ar|] eqn:Har; [|discriminate].
  cbn [mbind io_bind].
  destruct (zip_read ar (Some "Chrom.1.Xml")) as [mtd|] eqn:Hmtd; [|discriminate].
  destruct (et_parse mtd) as [root|] eqn:Hroot; [|discriminate].
  cbn [mbind io_bind class_defaults _do].
  destruct (_get_events py_float call_object data_order root) as [events|] eqn:Hev;
    [|discriminate].
  intros _. split; [exact Hv|]. split; [exact Ha|].
  now exists ar, mtd, root, events.
Qed.

Lemma init_accepted (f_name : string) (data_order : list string) (ignore : bool) :
  "volume" ∈ data_order -> "amplitude" ∈ data_order ->
  __init__ py_float py_int ZipFile et_parse call_object f_name data_order ignore
  = _load_data py_float py_int ZipFile et_parse call_object
      (class_defaults data_order) f_name ignore.
Proof.
  intros Hv Ha. unfold __init__. now rewrite !bool_decide_eq_true_2.
Qed.

(** X13.  Under the strict policy a successful construction is complete:
    the three event lists of the instance are the lists that event
    extraction found under Fraction, Injection and Logbook, the data order
    is the one given, and the read-outs are those of [_get_ro] on the same
    document. *)
Theorem strict_init_complete
    (f_name : string) (data_order : list string) (self : UNICORNZipExport float) :
  outcome (__init__ py_float py_int ZipFile et_parse call_object
             f_name data_order false) = Ok self ->
  exists ar mtd root events,
    ZipFile (Path f_name) = Ok ar
    /\ zip_read ar (Some "Chrom.1.Xml") = Ok mtd
    /\ et_parse mtd = Ok root
    /\ _get_events py_float call_object data_order root = Ok events
    /\ events !! Some "Fraction" = Some (fractions self)
    /\ events !! Some "Injection" = Some (injections self)
    /\ events !! Some "Logbook" = Some (messages self)
    /\ _do self = data_order
    /\ outcome (_get_ro py_int ZipFile data_order ar root) = Ok (readout self).
Proof.
  intros Hok. pose proof Hok as Hsteps.
  apply init_Ok_steps in Hsteps
    as (Hv & Ha & ar & mtd & root & events & Har & Hmtd & Hroot & Hev).
  exists ar, mtd, root, events. do 4 (split; [assumption|]).
  rewrite (init_accepted _ _ _ Hv Ha) in Hok.
  rewrite (load_data_run (class_defaults data_order) _ _ ar mtd root events Har Hmtd Hroot Hev) in Hok.
  cbv zeta in Hok. cbn [class_defaults _do] in Hok.
  pose proof (assign_events_first_missing (class_defaults data_order) events) as Hfm.
  destruct (first_missing events) as [key|]; [discriminate|].
  destruct Hfm as (fr & inj & lg & Hf & Hi & Hl & Has). rewrite Has in Hok.
  cbn [outcome fst snd] in Hok.
  destruct (_get_ro py_int ZipFile data_order ar root) as [t [ros|e]]; [|discriminate].
  cbn [outcome snd] in *. injection Hok as <-. auto.
Qed.

(** X14.  The permissive policy changes nothing for an export that the
    strict policy reads: when construction succeeds under the strict
    policy, construction under the permissive policy makes the same
    accesses and returns the same instance. *)
Theorem strict_success_same_as_permissive
    (f_name : string) (data_order : list string) (self : UNICORNZipExport float) :
  outcome (__init__ py_float py_int ZipFile et_parse call_object
             f_name data_order false) = Ok self ->
  __init__ py_float py_int ZipFile et_parse call_object f_name data_order true
  = __init__ py_float py_int ZipFile et_parse call_object f_name data_order false.
Proof.
  intros Hok. pose proof Hok as Hsteps.
  apply init_Ok_steps in Hsteps
    as (Hv & Ha & ar & mtd & root & events & Har & Hmtd & Hroot & Hev).
  rewrite !(init_accepted _ _ _ Hv Ha) in *.
  rewrite !(load_data_run (class_defaults data_order) _ _ ar mtd root events Har Hmtd Hroot Hev) in *.
  cbv zeta in *.
  destruct (first_missing events) as [key|]; [discriminate | reflexivity].
Qed.

(** X15.  Under the strict policy, the first of Fraction, Injection and
    Logbook that event extraction did not find is the one the ValueError
    names, and the failure comes before any curve is read: the only
    accesses are the opening of the export and of its metadata entry. *)
Theorem strict_init_first_missing
    (f_name : string) (data_order : list string) (ar : archive) (mtd : bytes)
    (root : element) (events : gmap (option string) (list (list (pyval float))))
    (key : string) :
  "volume" ∈ data_order -> "amplitude" ∈ data_order ->
  ZipFile (Path f_name) = Ok ar ->
  ar !! "Chrom.1.Xml" = Some mtd ->
  et_parse mtd = Ok root ->
  _get_events py_float call_object data_order root = Ok events ->
  first_missing events = Some key ->
  __init__ py_float py_int ZipFile et_parse call_object f_name data_order false
  = ([OpenArchive f_name; OpenEntry "Chrom.1.Xml"],
     Error (ValueError (MissingEvents f_name key))).
Proof.
  intros Hv Ha Har Hmtd Hroot Hev Hkey.
  rewrite (init_accepted _ _ _ Hv Ha).
  rewrite (load_data_run (class_defaults data_order) _ _ ar mtd root events Har);
    try assumption.
  - cbv zeta. now rewrite Hkey.
  - unfold zip_read. cbn. now rewrite Hmtd.
Qed.

(** X16.  Construction reads the export in a fixed order: when it succeeds,
    it has opened the export, then its metadata entry, and then read the
    binary entry of each curve of the document exactly once, in document
    order, and nothing else. *)
Theorem init_access_order
    (f_name : string) (data_order : list string) (ignore : bool)
    (self : UNICORNZipExport float) :
  outcome (__init__ py_float py_int ZipFile et_parse call_object
             f_name data_order ignore) = Ok self ->
  exists ar mtd root,
    ZipFile (Path f_name) = Ok ar
    /\ zip_read ar (Some "Chrom.1.Xml") = Ok mtd
    /\ et_parse mtd = Ok root
    /\ trace (__init__ py_float py_int ZipFile et_parse call_object
                f_name data_order ignore)
       = OpenArchive f_name :: OpenEntry "Chrom.1.Xml"
         :: map (fun c => ReadEntry (blob_name c)) (iter "Curve" root).
Proof.
  intros Hok. pose proof Hok as Hsteps.
  apply init_Ok_steps in Hsteps
    as (Hv & Ha & ar & mtd & root & events & Har & Hmtd & Hroot & Hev).
  exists ar, mtd, root. do 3 (split; [assumption|]).
  rewrite (init_accepted _ _ _ Hv Ha) in *.
  rewrite (load_data_run (class_defaults data_order) _ _ ar mtd root events Har Hmtd Hroot Hev) in *.
  cbv zeta in *. cbn [class_defaults _do] in *.
  pose proof (get_ro_trace data_order ar root) as Ht.
  destruct (_get_ro py_int ZipFile data_order ar root) as [t [ros|e]];
    cbn [outcome trace fst snd] in *;
    [specialize (Ht ros eq_refl); subst t|].
  - destruct (first_missing events) as [key|];
      [destruct ignore; [|discriminate]|]; reflexivity.
  - destruct (first_missing events) as [key|];
      [destruct ignore|]; discriminate.
Qed.

Lemma get_events_swapped_Ok (first : string) (rest : list string) (root : element)
    (events : gmap (option string) (list (list (pyval float)))) :
  first <> "volume" ->
  _get_events py_float call_object (first :: rest) root = Ok events ->
  iter "EventCurve" root = [] /\ events = ∅.
Proof.
  intros Hfirst. unfold _get_events.
  destruct (iter "EventCurve" root) as [|ec ecs]; cbn [for_result].
  - now intros [= <-].
  - destruct (event_columns py_float ec); [|discriminate].
    cbn [mbind result_bind first_not_volume].
    apply String.eqb_neq in Hfirst. rewrite Hfirst. discriminate.
Qed.

(** X17.  An instance built with a data order whose first axis is not volume
    never carries events: such a construction can only succeed under the
    permissive policy, and then the three event lists are empty. *)
Theorem swapped_order_carries_no_events
    (f_name first : string) (rest : list string) (ignore : bool)
    (self : UNICORNZipExport float) :
  first <> "volume" ->
  outcome (__init__ py_float py_int ZipFile et_parse call_object
             f_name (first :: rest) ignore) = Ok self ->
  ignore = true
  /\ fractions self = [] /\ injections self = [] /\ messages self = [].
Proof.
  intros Hfirst Hok. pose proof Hok as Hsteps.
  apply init_Ok_steps in Hsteps
    as (Hv & Ha & ar & mtd & root & events & Har & Hmtd & Hroot & Hev).
  destruct (get_events_swapped_Ok _ _ _ _ Hfirst Hev) as [_ ->].
  rewrite (init_accepted _ _ _ Hv Ha) in Hok.
  rewrite (load_data_run (class_defaults (first :: rest)) _ _ ar mtd root ∅
             Har Hmtd Hroot Hev) in Hok.
  cbv zeta in Hok.
  change (first_missing (∅ : gmap (option string) (list (list (pyval float)))))
    with (Some "Fraction") in Hok.
  destruct ignore; [|discriminate]. split; [reflexivity|].
  cbn [outcome snd] in Hok.
  destruct (outcome (_get_ro py_int ZipFile _ ar root)) as [ros|]; [|discriminate].
  injection Hok as <-. repeat split.
Qed.

(** ** Decoding one curve *)

(** X18.  Padding never reaches the nested archive: for a well-formed
    container followed by marker-free bytes, the decoder opens exactly the
    container and returns the decoded data of each axis of the data order
    from it, whatever the padding is. *)
Theorem decode_ro_buf_ignores_padding
    (self_do : list string) (c padding : bytes) :
  well_formed_container c -> marker_free padding ->
  _decode_ro_buf ZipFile self_do (c ++ padding)
  = inner ← ZipFile (BytesIO c); map_result (axis_data inner) self_do.
Proof.
  intros Hwf Hfree. rewrite decode_ro_buf_axes.
  assert (Hstop : _get_padding_start (c ++ padding) = Ok (length c)).
  { apply padding_start_iff. pose proof Hwf as (Hlen & _).
    unfold eocd_len in Hlen. split; [exact Hlen|].
    now apply rfind_container_padding. }
  rewrite Hstop. cbn [mbind result_bind]. now rewrite take_app_length.
Qed.

(** X19.  Units are read lazily: whether a curve has its unit elements
    plays no part in reading it.  A curve with one binary entry, which is
    present and decodes, and a name that normalises is read without failure
    by the loop body of [_get_ro], and its units are left as a generator.
    When the unit element of the axis at position [i] of the data order is
    the first one missing, that generator yields the [i] units before it,
    raises AttributeError when the next one is asked for, and is exhausted
    after that. *)
Theorem read_curve_lazy_units
    (self_do : list string) (ar : archive) (c f_name cn : element)
    (buf : bytes) (ms : list (list f4)) (name : string) (wl : option Z) :
  unpack1 (iter "BinaryCurvePointsFileName" c) = Ok f_name ->
  zip_read ar (text f_name) = Ok buf ->
  _decode_ro_buf ZipFile self_do buf = Ok ms ->
  find "Name" c = Some cn ->
  correct_name_of_text py_int (text cn) = Ok (name, wl) ->
  exists ro,
    outcome (read_curve py_int ZipFile self_do ar c) = Ok (name, ro)
    /\ measurements ro = ms /\ wavelength ro = wl
    /\ forall (i : nat) (d : string),
         self_do !! i = Some d ->
         find (capitalize d +:+ "Unit") c = None ->
         (forall j d', (j < i)%nat -> self_do !! j = Some d' ->
            is_ok (axis_unit c d') = true) ->
         length (yielded (units ro)) = i
         /\ raised (units ro) = Some (AttributeError "text")
         /\ (next (advance i (units ro))).1 = Raise (AttributeError "text")
         /\ (next (advance (S i) (units ro))).1 = StopIteration.
Proof.
  intros Hname Hbuf Hms Hcn Hnorm.
  exists (mk_ReadOut ms (_get_ro_units self_do c) wl). split.
  - unfold read_curve, pure_step, io_step. rewrite Hname.
    cbn [mbind io_bind app]. rewrite Hbuf, Hms, Hcn. cbn [text_of].
    rewrite Hnorm. reflexivity.
  - split; [reflexivity|]. split; [reflexivity|].
    intros i d Hd Hfind Hbefore. cbn [units].
    rewrite get_ro_units_axes.
    assert (Hgen : forall ds k,
              ds !! k = Some d ->
              (forall j d', (j < k)%nat -> ds !! j = Some d' ->
                 is_ok (axis_unit c d') = true) ->
              length (yielded (generate (axis_unit c) ds)) = k
              /\ raised (generate (axis_unit c) ds) = Some (AttributeError "text")).
    { induction ds as [|d0 ds IH]; intros k Hk Hok; [now rewrite lookup_nil in Hk|].
      cbn [generate]. destruct k as [|k].
      - cbn in Hk. injection Hk as ->.
        assert (Herr : axis_unit c d = Error (AttributeError "text"))
          by (unfold axis_unit; rewrite Hfind; reflexivity).
        rewrite Herr. cbn. now split.
      - pose proof (Hok 0%nat d0 ltac:(lia) eq_refl) as H0.
        destruct (axis_unit c d0) as [u|]; [|discriminate H0].
        destruct (IH k Hk) as [Hl Hr].
        { intros j d' Hj Hd'. apply (Hok (S j) d'); [lia | exact Hd']. }
        cbn [yielded raised length]. now rewrite Hl. }
    destruct (Hgen self_do i Hd Hbefore) as [Hl Hr].
    split; [exact Hl|]. split; [exact Hr|].
    pose proof (next_after_yielded _ _ Hr) as Hn.
    rewrite Hl in Hn. exact Hn.
Qed.

End ExportProperties.

Lemma get_events_swapped_order_raises_witness :
  _get_events sample_float sample_call ["amplitude"; "volume"] full_doc
  = Error (NameError "reverse").
Proof.
  rewrite (get_events_swapped_order_raises Z sample_float sample_call
             "amplitude" ["volume"] full_doc _ _ ltac:(discriminate) eq_refl).
  reflexivity.
Defined.

Lemma load_data_drops_present_events_witness :
  outcome (sample_init "no_fraction.zip" ["volume"; "amplitude"] true)
  = Ok (mkExport ["volume"; "amplitude"] [] [] [] ∅)
  /\ outcome (sample_init "no_fraction.zip" ["volume"; "amplitude"] false)
     = Error (ValueError (MissingEvents "no_fraction.zip" "Fraction")).
Proof.
  exact (proj2 (load_data_drops_present_events Z sample_float sample_int sample_ZipFile
                  sample_parse sample_call "no_fraction.zip"
                  {["Chrom.1.Xml" := xml_bytes doc_no_fraction]}
                  (xml_bytes doc_no_fraction) 0 1 20
                  eq_refl eq_refl eq_refl eq_refl eq_refl eq_refl)).
Defined.

Lemma init_validates_membership_witness :
  sample_init "run.zip" ["volume"] false
  = ([], Error (ValueError InvalidDataOrder))
  /\ (exists rest,
        trace (sample_init "run.zip" ["amplitude"; "volume"] false)
        = OpenArchive "run.zip" :: rest).
Proof.
  split.
  - apply (init_validates_membership Z sample_float sample_int sample_ZipFile sample_parse
             sample_call "run.zip" ["volume"] false).
    intros [_ Ha]. revert Ha. apply (bool_decide_unpack _). vm_compute. exact I.
  - apply (init_validates_membership Z sample_float sample_int sample_ZipFile sample_parse
             sample_call "run.zip" ["amplitude"; "volume"] false).
    apply (proj2 (proj2 (init_validates_membership Z sample_float sample_int sample_ZipFile
             sample_parse sample_call "run.zip" ["amplitude"; "volume"] false))).
    right. reflexivity.
Defined.

(** A data order with a duplicate is not one of the two exact orders, and
    construction with it succeeds. *)
Lemma init_accepts_inexact_order :
  ~ exact_axis_order ["volume"; "amplitude"; "volume"]
  /\ is_ok (outcome (sample_init "run.zip" ["volume"; "amplitude"; "volume"] false))
     = true
  /\ trace (sample_init "run.zip" ["volume"; "amplitude"; "volume"] false)
     = [OpenArchive "run.zip"; OpenEntry "Chrom.1.Xml";
        ReadEntry (Some "Chrom.1_1_True")].
Proof.
  split; [|split].
  - intros [H|H]; discriminate H.
  - vm_compute. reflexivity.
  - vm_compute. reflexivity.
Qed.

Lemma missing_metadata_always_fails_witness :
  sample_init "no_metadata.zip" ["volume"; "amplitude"] true
  = ([OpenArchive "no_metadata.zip"; OpenEntry "Chrom.1.Xml"],
     Error (KeyError (NoItemNamed (Some "Chrom.1.Xml"))))
  /\ sample_init "no_metadata.zip" ["volume"; "amplitude"] false
  = ([OpenArchive "no_metadata.zip"; OpenEntry "Chrom.1.Xml"],
     Error (KeyError (NoItemNamed (Some "Chrom.1.Xml")))).
Proof.
  split.
  - apply (missing_metadata_always_fails Z sample_float sample_int sample_ZipFile sample_parse
             sample_call "no_metadata.zip" ["volume"; "amplitude"] true
             {["Chrom.1_1_True" := curve_zip ++ curve_padding]} eq_refl eq_refl);
      apply (bool_decide_unpack _); vm_compute; exact I.
  - apply (missing_metadata_always_fails Z sample_float sample_int sample_ZipFile sample_parse
             sample_call "no_metadata.zip" ["volume"; "amplitude"] false
             {["Chrom.1_1_True" := curve_zip ++ curve_padding]} eq_refl eq_refl);
      apply (bool_decide_unpack _); vm_compute; exact I.
Defined.

Lemma event_columns_parallel_witness :
  event_columns sample_float
    (event_curve "Fraction" [event "10" "A1"; event "12" "A2"])
  = Ok [[PyFloat 10; PyFloat 12]; [PyStr "A1"; PyStr "A2"]].
Proof.
  apply (event_columns_parallel Z sample_float
           (event_curve "Fraction" [event "10" "A1"; event "12" "A2"])
           [(10, Some "A1"); (12, Some "A2")]).
  repeat constructor.
Defined.

(** An EventCurve without events: the assembled list has no sequence at all,
    and that is what event extraction stores. *)
Lemma event_columns_no_event :
  event_columns sample_float (event_curve "Fraction" []) = Ok []
  /\ _get_events sample_float sample_call ["volume"; "amplitude"] doc_empty_curve
     = Ok {[Some "Fraction" := []]}
  /\ length ([] : list (list (pyval Z))) <> 2%nat.
Proof. split; [|split]; [reflexivity | reflexivity | discriminate]. Qed.

Lemma decode_ro_buf_returns_both_witness :
  _decode_ro_buf sample_ZipFile ["volume"; "amplitude"]
    (ragged_zip ++ ragged_padding)
  = Ok [[le32 x00 x00 x00 x3f];
        [le32 x00 x00 x80 x3f; le32 x00 x00 x00 x40]]
  /\ _decode_ro_buf sample_ZipFile ["amplitude"; "volume"]
       (ragged_zip ++ ragged_padding)
     = Ok [[le32 x00 x00 x80 x3f; le32 x00 x00 x00 x40];
           [le32 x00 x00 x00 x3f]].
Proof.
  apply (decode_ro_buf_returns_both sample_ZipFile
           (ragged_zip ++ ragged_padding) (length ragged_zip) ragged_archive
           (sample_prefix ++ half_f4 ++ [xff])
           (sample_prefix ++ one_f4 ++ two_f4 ++ [xff]));
    reflexivity.
Defined.

(** A curve whose Volumes entry holds one point and whose Amplitudes entry
    holds two: the decoder, and the export as a whole, return the two
    sequences of lengths 1 and 2 without any failure. *)
Lemma ragged_curve_accepted :
  _decode_ro_buf sample_ZipFile ["volume"; "amplitude"]
    (ragged_zip ++ ragged_padding)
  = Ok [[le32 x00 x00 x00 x3f];
        [le32 x00 x00 x80 x3f; le32 x00 x00 x00 x40]]
  /\ (readout <$> outcome_value (sample_init "ragged.zip" ["volume"; "amplitude"] false))
       ≫= (.!! "Conductance")
     = Some (mk_ReadOut
               [[le32 x00 x00 x00 x3f];
                [le32 x00 x00 x80 x3f; le32 x00 x00 x00 x40]]
               (mkGenerator [Some "ml"; Some "mAU"] None) None).
Proof. split; vm_compute; reflexivity. Qed.

Lemma readout_units_follow_measurements_witness :
  let files : archive := <["Chrom.1_1_True" := curve_zip ++ curve_padding]> ∅ in
  (exists ros ro curve inner,
     outcome (_get_ro sample_int sample_ZipFile ["volume"; "amplitude"] files full_doc)
     = Ok ros
     /\ ros !! "UV" = Some ro
     /\ units ro = mkGenerator [Some "ml"; Some "mAU"] None
     /\ (forall i d, ["volume"; "amplitude"] !! i = Some d ->
          exists floats, measurements ro !! i = Some floats
                         /\ axis_data inner d = Ok floats)
     /\ (forall i u, yielded (units ro) !! i = Some u ->
          exists d, ["volume"; "amplitude"] !! i = Some d
                    /\ axis_unit curve d = Ok u))
  /\ (exists ros ro curve inner,
     outcome (_get_ro sample_int sample_ZipFile ["amplitude"; "volume"] files full_doc)
     = Ok ros
     /\ ros !! "UV" = Some ro
     /\ units ro = mkGenerator [Some "mAU"; Some "ml"] None
     /\ (forall i d, ["amplitude"; "volume"] !! i = Some d ->
          exists floats, measurements ro !! i = Some floats
                         /\ axis_data inner d = Ok floats)
     /\ (forall i u, yielded (units ro) !! i = Some u ->
          exists d, ["amplitude"; "volume"] !! i = Some d
                    /\ axis_unit curve d = Ok u)).
Proof.
  cbv zeta. split.
  - evar (ros : gmap string _ReadOut). evar (ro : _ReadOut).
    assert (Hros : outcome (_get_ro sample_int sample_ZipFile ["volume"; "amplitude"]
                     (<["Chrom.1_1_True" := curve_zip ++ curve_padding]> ∅)
                     full_doc) = Ok ros)
      by (unfold ros; vm_compute; reflexivity).
    assert (Hro : ros !! "UV" = Some ro)
      by (unfold ro, ros; vm_compute; reflexivity).
    destruct (readout_units_follow_measurements sample_int sample_ZipFile
                _ _ _ _ _ _ Hros Hro)
      as (curve & inner & _ & _ & _ & Hdata & Hunits & _).
    exists ros, ro, curve, inner.
    split; [exact Hros|]. split; [exact Hro|]. split; [reflexivity|].
    split; [exact Hdata | exact Hunits].
  - evar (ros : gmap string _ReadOut). evar (ro : _ReadOut).
    assert (Hros : outcome (_get_ro sample_int sample_ZipFile ["amplitude"; "volume"]
                     (<["Chrom.1_1_True" := curve_zip ++ curve_padding]> ∅)
                     full_doc) = Ok ros)
      by (unfold ros; vm_compute; reflexivity).
    assert (Hro : ros !! "UV" = Some ro)
      by (unfold ro, ros; vm_compute; reflexivity).
    destruct (readout_units_follow_measurements sample_int sample_ZipFile
                _ _ _ _ _ _ Hros Hro)
      as (curve & inner & _ & _ & _ & Hdata & Hunits & _).
    exists ros, ro, curve, inner.
    split; [exact Hros|]. split; [exact Hro|]. split; [reflexivity|].
    split; [exact Hdata | exact Hunits].
Defined.

(** * Further properties on the samples *)

Lemma get_ro_last_write_wins_witness :
  exists ros ro,
    outcome (_get_ro sample_int sample_ZipFile ["volume"; "amplitude"] twin_files twin_doc)
    = Ok ros
    /\ outcome (read_curve sample_int sample_ZipFile ["volume"; "amplitude"] twin_files
                  (curve "Conductance" "Chrom.1_2_True"))
       = Ok ("Conductance", ro)
    /\ ros !! "Conductance" = Some ro.
Proof.
  evar (ros : gmap string _ReadOut). evar (ro : _ReadOut).
  assert (Hros : outcome (_get_ro sample_int sample_ZipFile ["volume"; "amplitude"]
                            twin_files twin_doc) = Ok ros)
    by (unfold ros; vm_compute; reflexivity).
  assert (Hread : outcome (read_curve sample_int sample_ZipFile ["volume"; "amplitude"]
                             twin_files (curve "Conductance" "Chrom.1_2_True"))
                  = Ok ("Conductance", ro))
    by (unfold ro; vm_compute; reflexivity).
  exists ros, ro. split; [exact Hros|]. split; [exact Hread|].
  apply (get_ro_last_write_wins sample_int sample_ZipFile ["volume"; "amplitude"]
           twin_files twin_doc ros [curve "Cond" "Chrom.1_1_True"] []
           (curve "Conductance" "Chrom.1_2_True") "Conductance" ro
           Hros eq_refl Hread).
  intros c' ro' Hin. now apply elem_of_nil in Hin.
Defined.

Lemma get_ro_keys_witness :
  exists ros,
    outcome (_get_ro sample_int sample_ZipFile ["volume"; "amplitude"] twin_files twin_doc)
    = Ok ros
    /\ (size ros <= length (iter "Curve" twin_doc))%nat
    /\ forall name ro, ros !! name = Some ro ->
         exists c, c ∈ iter "Curve" twin_doc
                   /\ outcome (read_curve sample_int sample_ZipFile ["volume"; "amplitude"]
                                 twin_files c) = Ok (name, ro).
Proof.
  evar (ros : gmap string _ReadOut).
  assert (Hros : outcome (_get_ro sample_int sample_ZipFile ["volume"; "amplitude"]
                            twin_files twin_doc) = Ok ros)
    by (unfold ros; vm_compute; reflexivity).
  destruct (get_ro_keys sample_int sample_ZipFile _ _ _ _ Hros) as (_ & Hkeys & Hsize).
  exists ros. split; [exact Hros|]. split; [exact Hsize | exact Hkeys].
Defined.

Lemma get_events_last_write_wins_witness :
  exists m,
    _get_events sample_float sample_call ["volume"; "amplitude"] twice_doc = Ok m
    /\ m !! Some "Fraction"
       = Some [[PyFloat 30; PyFloat 32]; [PyStr "B1"; PyStr "B2"]].
Proof.
  evar (m : gmap (option string) (list (list (pyval Z)))).
  assert (Hm : _get_events sample_float sample_call ["volume"; "amplitude"]
                 twice_doc = Ok m)
    by (unfold m; vm_compute; reflexivity).
  exists m. split; [exact Hm|].
  apply (get_events_last_write_wins Z sample_float sample_call ["amplitude"]
           twice_doc m
           [event_curve "Fraction" [event "10" "A1"];
            event_curve "Logbook" [event "0" "Start"]]
           []
           (event_curve "Fraction" [event "30" "B1"; event "32" "B2"])
           [[PyFloat 30; PyFloat 32]; [PyStr "B1"; PyStr "B2"]]
           Hm eq_refl eq_refl).
  intros ec' Hin. now apply elem_of_nil in Hin.
Defined.

Lemma get_events_all_well_formed_witness :
  exists ve s v te,
    find "EventVolume" (event "1" "Sample") = Some ve /\ text ve = Some s
    /\ sample_float s = Ok v
    /\ find "EventText" (event "1" "Sample") = Some te.
Proof.
  evar (m : gmap (option string) (list (list (pyval Z)))).
  assert (Hm : _get_events sample_float sample_call ["volume"; "amplitude"]
                 full_doc = Ok m)
    by (unfold m; vm_compute; reflexivity).
  apply (get_events_all_well_formed Z sample_float sample_call
           ["volume"; "amplitude"] full_doc m
           (event_curve "Injection" [event "1" "Sample"]) (event "1" "Sample") Hm).
  - apply list_elem_of_lookup. exists 1%nat. reflexivity.
  - apply list_elem_of_lookup. exists 0%nat. reflexivity.
Defined.

Lemma strict_init_complete_witness :
  exists self events,
    outcome (sample_init "run.zip" ["volume"; "amplitude"] false) = Ok self
    /\ _get_events sample_float sample_call ["volume"; "amplitude"] full_doc
       = Ok events
    /\ events !! Some "Fraction" = Some (fractions self)
    /\ events !! Some "Injection" = Some (injections self)
    /\ events !! Some "Logbook" = Some (messages self)
    /\ _do self = ["volume"; "amplitude"].
Proof.
  evar (self : UNICORNZipExport Z).
  assert (Hok : outcome (sample_init "run.zip" ["volume"; "amplitude"] false)
                = Ok self)
    by (unfold self; vm_compute; reflexivity).
  destruct (strict_init_complete Z sample_float sample_int sample_ZipFile sample_parse
              sample_call "run.zip" ["volume"; "amplitude"] self Hok)
    as (ar & mtd & root & events & Har & Hmtd & Hroot & Hev & Hf & Hi & Hl & Hdo & _).
  vm_compute in Har. injection Har as <-.
  vm_compute in Hmtd. injection Hmtd as <-.
  vm_compute in Hroot. injection Hroot as <-.
  exists self, events. split; [exact Hok|]. split; [exact Hev|]. auto.
Defined.

Lemma strict_success_same_as_permissive_witness :
  sample_init "run.zip" ["volume"; "amplitude"] true
  = sample_init "run.zip" ["volume"; "amplitude"] false.
Proof.
  evar (self : UNICORNZipExport Z).
  assert (Hok : outcome (sample_init "run.zip" ["volume"; "amplitude"] false)
                = Ok self)
    by (unfold self; vm_compute; reflexivity).
  exact (strict_success_same_as_permissive Z sample_float sample_int sample_ZipFile
           sample_parse sample_call "run.zip" ["volume"; "amplitude"] self Hok).
Defined.

Lemma strict_init_first_missing_witness :
  sample_init "no_fraction.zip" ["volume"; "amplitude"] false
  = ([OpenArchive "no_fraction.zip"; OpenEntry "Chrom.1.Xml"],
     Error (ValueError (MissingEvents "no_fraction.zip" "Fraction"))).
Proof.
  evar (events : gmap (option string) (list (list (pyval Z)))).
  assert (Hev : _get_events sample_float sample_call ["volume"; "amplitude"]
                  doc_no_fraction = Ok events)
    by (unfold events; vm_compute; reflexivity).
  apply (strict_init_first_missing Z sample_float sample_int sample_ZipFile sample_parse
           sample_call "no_fraction.zip" ["volume"; "amplitude"]
           {["Chrom.1.Xml" := xml_bytes doc_no_fraction]}
           (xml_bytes doc_no_fraction) doc_no_fraction events "Fraction").
  - apply (bool_decide_unpack _). vm_compute. exact I.
  - apply (bool_decide_unpack _). vm_compute. exact I.
  - reflexivity.
  - reflexivity.
  - vm_compute. reflexivity.
  - exact Hev.
  - unfold events. vm_compute. reflexivity.
Defined.

Lemma init_access_order_witness :
  exists ar mtd root,
    sample_ZipFile (Path "run.zip") = Ok ar
    /\ zip_read ar (Some "Chrom.1.Xml") = Ok mtd
    /\ sample_parse mtd = Ok root
    /\ trace (sample_init "run.zip" ["volume"; "amplitude"] false)
       = OpenArchive "run.zip" :: OpenEntry "Chrom.1.Xml"
         :: map (fun c => ReadEntry (blob_name c)) (iter "Curve" root).
Proof.
  evar (self : UNICORNZipExport Z).
  assert (Hok : outcome (sample_init "run.zip" ["volume"; "amplitude"] false)
                = Ok self)
    by (unfold self; vm_compute; reflexivity).
  exact (init_access_order Z sample_float sample_int sample_ZipFile sample_parse
           sample_call "run.zip" ["volume"; "amplitude"] false self Hok).
Defined.

Lemma swapped_order_carries_no_events_witness :
  exists self,
    outcome (twin_init "twin.zip" ["amplitude"; "volume"] true) = Ok self
    /\ fractions self = [] /\ injections self = [] /\ messages self = [].
Proof.
  evar (self : UNICORNZipExport Z).
  assert (Hok : outcome (twin_init "twin.zip" ["amplitude"; "volume"] true)
                = Ok self)
    by (unfold self; vm_compute; reflexivity).
  exists self. split; [exact Hok|].
  apply (swapped_order_carries_no_events Z sample_float sample_int twin_ZipFile twin_parse
           sample_call "twin.zip" "amplitude" ["volume"] true self);
    [discriminate | exact Hok].
Defined.

Lemma decode_ro_buf_ignores_padding_witness :
  _decode_ro_buf sample_ZipFile ["volume"; "amplitude"] (curve_zip ++ curve_padding)
  = inner ← sample_ZipFile (BytesIO curve_zip);
    map_result (axis_data inner) ["volume"; "amplitude"].
Proof.
  apply (decode_ro_buf_ignores_padding sample_ZipFile ["volume"; "amplitude"]
           curve_zip curve_padding).
  - split; [vm_compute; lia|]. split; [reflexivity|]. split; [reflexivity|].
    apply rfind_last_occurrence. reflexivity.
  - apply rfind_marker_free. reflexivity.
Defined.

Lemma read_curve_lazy_units_witness :
  exists ro,
    outcome (read_curve sample_int sample_ZipFile ["volume"; "amplitude"]
               twin_files volume_only_curve)
    = Ok ("pH", ro)
    /\ (next (units ro)).1 = Yield (Some "ml")
    /\ (next (advance 1 (units ro))).1 = Raise (AttributeError "text")
    /\ (next (advance 2 (units ro))).1 = StopIteration.
Proof.
  evar (ms : list (list f4)).
  assert (Hms : _decode_ro_buf sample_ZipFile ["volume"; "amplitude"]
                  (curve_zip ++ curve_padding) = Ok ms)
    by (unfold ms; vm_compute; reflexivity).
  destruct (read_curve_lazy_units sample_int sample_ZipFile
              ["volume"; "amplitude"] twin_files volume_only_curve
              (leaf "BinaryCurvePointsFileName" "Chrom.1_1_True")
              (leaf "Name" "pH") (curve_zip ++ curve_padding) ms "pH" None
              eq_refl eq_refl Hms eq_refl eq_refl)
    as (ro & Hread & _ & _ & Hlazy).
  destruct (Hlazy 1%nat "amplitude" eq_refl eq_refl) as (Hlen & _ & Hraise & Hstop).
  { intros j d' Hj Hd'. destruct j as [|j]; [|lia].
    injection Hd' as <-. reflexivity. }
  exists ro. split; [exact Hread|]. split; [|split; [exact Hraise | exact Hstop]].
  destruct (units ro) as [[|u us] r] eqn:Hu; [discriminate Hlen|].
  vm_compute in Hread. injection Hread as <-.
  vm_compute in Hu. injection Hu as <- _ _. reflexivity.
Defined.
